(** * postgres_mcp.py: a line-delimited JSON-RPC adapter over PostgreSQL

    A shallow embedding of [src/postgres_mcp.py]: the three database
    functions ([query_db], [list_tables], [describe_table]), the method
    dispatcher [handle], the writer [send] and the read loop [main].

    Python values that travel through the program are JSON values; strings
    are byte strings holding the UTF-8 form of Python's [str].  The program
    has three effects, all kept in an explicit [world]: the calls it makes
    on the database driver, the lines it prints on standard output and the
    lines it logs on standard error.  Exceptions are values of [exn], and a
    computation is a function from a world to an outcome and a world.

    What the program takes from the interpreter and from its libraries
    ([json.loads], [json.dumps] of database rows, [str.strip], [str.upper],
    [repr] of compound values, and the driver psycopg2) is not code of the
    repository; it is gathered in the record [Runtime], over which every
    definition and theorem is generic.  [Fixture] gives one concrete
    runtime on which the definitions are evaluated. *)

From Stdlib Require Import String Ascii List ZArith Bool Lia DecimalString.
Import ListNotations.
Open Scope string_scope.

#[local] Set Warnings "-register-all".

(** ** Values *)

(** A value produced by [json.loads].  A float is kept by its literal: the
    program never computes with numbers. *)
Inductive json : Type :=
| JNull
| JBool (b : bool)
| JInt (z : Z)
| JFloat (literal : string)
| JStr (s : string)
| JArr (items : list json)
| JObj (fields : list (string * json)).

(** A Python [dict] with string keys, in insertion order. *)
Definition dict := list (string * json).

Fixpoint dict_lookup (d : dict) (key : string) : option json :=
  match d with
  | [] => None
  | (k, v) :: rest => if String.eqb k key then Some v else dict_lookup rest key
  end.

(** [d.get(key, default)] *)
Definition dict_get (d : dict) (key : string) (default : json) : json :=
  match dict_lookup d key with Some v => v | None => default end.

Definition has_key (d : dict) (key : string) : bool :=
  match dict_lookup d key with Some _ => true | None => false end.

(** [d.setdefault(key, value)]: a new key goes last, a present key keeps
    its value. *)
Definition setdefault (d : dict) (key : string) (value : json) : dict :=
  if has_key d key then d else (d ++ [(key, value)])%list.

(** [type(v).__name__] *)
Definition type_name (v : json) : string :=
  match v with
  | JNull => "NoneType"
  | JBool _ => "bool"
  | JInt _ => "int"
  | JFloat _ => "float"
  | JStr _ => "str"
  | JArr _ => "list"
  | JObj _ => "dict"
  end.

Definition is_str (v : json) : bool :=
  match v with JStr _ => true | _ => false end.

(** [v == s] for a string literal [s]: only an equal [str] compares equal. *)
Definition json_eq_str (v : json) (s : string) : bool :=
  match v with JStr t => String.eqb t s | _ => false end.

(** [s.startswith(p)] *)
Definition startswith (s p : string) : bool := String.prefix p s.

Definition LF : string := String (ascii_of_nat 10) EmptyString.

(** [sep.join(parts)] *)
Fixpoint join (sep : string) (parts : list string) : string :=
  match parts with
  | [] => ""
  | [p] => p
  | p :: rest => p ++ sep ++ join sep rest
  end.

(** ** Exceptions *)

(** The exceptions the program can meet, all of them subclasses of
    [Exception].  [AttributeError] is what a method call on a value of the
    wrong type raises; [UnboundLocalError] is what reading a local variable
    that was never assigned raises; [LibraryError] stands for whatever a
    library raises ([json.JSONDecodeError], [psycopg2.Error], [IndexError],
    ...), kept by its message. *)
Inductive exn : Type :=
| AttributeError (type attr : string)
| UnboundLocalError (name : string)
| LibraryError (message : string).

(** [str(e)].  The message of [UnboundLocalError] changes with the version
    of the interpreter; the program never prints it. *)
Definition exn_str (e : exn) : string :=
  match e with
  | AttributeError type attr =>
      "'" ++ type ++ "' object has no attribute '" ++ attr ++ "'"
  | UnboundLocalError name =>
      "cannot access local variable '" ++ name
        ++ "' where it is not associated with a value"
  | LibraryError message => message
  end.

(** ** The database driver and the world *)

(** A row of a result set: the columns in order, each with the text of its
    value. *)
Definition row := list (string * string).

(** What [cur.execute] receives: the SQL text and the bound parameters. *)
Inductive statement : Type :=
| Stmt (sql : string) (params : list json).

(** The calls made on the driver.  A connection is named by the number of
    connection attempts made before it. *)
Inductive db_event : Type :=
| Connect (conn : nat)
| ConnectFailed (conn : nat)
| Cursor (conn : nat)
| Execute (conn : nat) (s : statement)
| Fetchall (conn : nat)
| CursorClose (conn : nat)
| Close (conn : nat).

Record world : Type := mkWorld {
  db_log : list db_event;
  stdout : list dict;
  stderr : list string
}.

Definition initial_world : world := mkWorld [] [] [].

(** What the program takes from outside the repository.  The database
    answers as a function of the calls made so far. *)
Record Runtime : Type := mkRuntime {
  json_loads : string -> exn + json;
  json_dumps_rows : bool -> list row -> exn + string;
  str_strip : string -> string;
  str_upper : string -> string;
  py_repr : json -> string;
  db_connect : list db_event -> option exn;
  db_execute : list db_event -> statement -> option exn;
  db_fetchall : list db_event -> exn + list row
}.

(** ** Computations *)

Definition M (A : Type) : Type := world -> (exn + A) * world.

Definition ret {A} (a : A) : M A := fun w => (inr a, w).

Definition raise {A} (e : exn) : M A := fun w => (inl e, w).

Definition bind {A B} (m : M A) (k : A -> M B) : M B :=
  fun w =>
    match m w with
    | (inr a, w') => k a w'
    | (inl e, w') => (inl e, w')
    end.

(** [try: m except Exception as e: h e] *)
Definition try_except {A} (m : M A) (h : exn -> M A) : M A :=
  fun w =>
    match m w with
    | (inr a, w') => (inr a, w')
    | (inl e, w') => h e w'
    end.

(** Lift a library call that leaves the world alone. *)
Definition lift {A} (r : exn + A) : M A := fun w => (r, w).

Declare Scope comp_scope.
Delimit Scope comp_scope with comp.
Notation "x <- m ;; k" := (bind m (fun x => k))
  (at level 61, m at next level, right associativity) : comp_scope.
Notation "m ;;; k" := (bind m (fun _ => k))
  (at level 61, right associativity) : comp_scope.
Open Scope comp_scope.

Definition snoc {A} (l : list A) (x : A) : list A := app l [x].

Definition emit (ev : db_event) : M unit :=
  fun w => (inr tt, mkWorld (snoc (db_log w) ev) (stdout w) (stderr w)).

Definition is_attempt (ev : db_event) : bool :=
  match ev with
  | Connect _ | ConnectFailed _ => true
  | _ => false
  end.

Definition is_connect (c : nat) (ev : db_event) : bool :=
  match ev with Connect c' => Nat.eqb c' c | _ => false end.

Definition is_close (c : nat) (ev : db_event) : bool :=
  match ev with Close c' => Nat.eqb c' c | _ => false end.

Definition count_attempts (log : list db_event) : nat :=
  length (filter is_attempt log).

(** Connection [c] was opened and [conn.close()] was never called on it. *)
Definition left_open (log : list db_event) (c : nat) : bool :=
  existsb (is_connect c) log && negb (existsb (is_close c) log).

(** ** The program *)

Section Program.

Variable rt : Runtime.

(** [log(msg)]: one line on standard error. *)
Definition log (msg : string) : M unit :=
  fun w =>
    (inr tt, mkWorld (db_log w) (stdout w) (snoc (stderr w) ("[PG-MCP] " ++ msg))).

(** [get_conn()]: [psycopg2.connect] on [DB_CONFIG], a new connection or
    an exception. *)
Definition get_conn : M nat :=
  fun w =>
    let c := count_attempts (db_log w) in
    match db_connect rt (db_log w) with
    | None => (inr c, mkWorld (snoc (db_log w) (Connect c)) (stdout w) (stderr w))
    | Some e =>
        (inl e, mkWorld (snoc (db_log w) (ConnectFailed c)) (stdout w) (stderr w))
    end.

(** [cur.execute(sql, params)] *)
Definition cur_execute (c : nat) (s : statement) : M unit :=
  fun w =>
    let w' := mkWorld (snoc (db_log w) (Execute c s)) (stdout w) (stderr w) in
    match db_execute rt (db_log w) s with
    | None => (inr tt, w')
    | Some e => (inl e, w')
    end.

(** [cur.fetchall()] *)
Definition cur_fetchall (c : nat) : M (list row) :=
  fun w =>
    (db_fetchall rt (db_log w),
     mkWorld (snoc (db_log w) (Fetchall c)) (stdout w) (stderr w)).

(** [with conn.cursor(...) as cur: body]: the cursor is closed when the
    block is left, by its end or by an exception; the exception goes on. *)
Definition with_cursor {A} (c : nat) (body : M A) : M A :=
  fun w =>
    match body (mkWorld (snoc (db_log w) (Cursor c)) (stdout w) (stderr w)) with
    | (r, w') =>
        (r, mkWorld (snoc (db_log w') (CursorClose c)) (stdout w') (stderr w'))
    end.

(** [conn.close()] *)
Definition conn_close (c : nat) : M unit := emit (Close c).

(** [send(resp)]: the object handed to [json.dumps], printed as one line. *)
Definition send (resp : dict) : M unit :=
  fun w =>
    (inr tt,
     mkWorld (db_log w)
             (snoc (stdout w) (setdefault resp "jsonrpc" (JStr "2.0")))
             (stderr w)).

(** [str(v)], also what an f-string writes for [{v}]. *)
Definition py_str (v : json) : string :=
  match v with
  | JStr s => s
  | JNull => "None"
  | JBool true => "True"
  | JBool false => "False"
  | JInt z => NilZero.string_of_int (Z.to_int z)
  | _ => py_repr rt v
  end.

Definition format_text (text : json) : json :=
  JObj [("type", JStr "text"); ("text", JStr (py_str text))].

(** *** The database functions *)

Definition only_select : string := "❌ Error: Only SELECT allowed.".

Definition db_error_marker : string := "❌ DB Error: ".

(** The handler of the three functions: [return f"❌ DB Error: {e}"]. *)
Definition db_error (e : exn) : M string :=
  ret (db_error_marker ++ exn_str e).

(** The [try] block of [query_db]. *)
Definition query_db_try (query : string) : M string :=
  conn <- get_conn ;;
  rows <- with_cursor conn
            (cur_execute conn (Stmt query []) ;;; cur_fetchall conn) ;;
  conn_close conn ;;;
  match rows with
  | [] => ret "No results"
  | _ => lift (json_dumps_rows rt true rows)
  end.

(** [query_db(query)].  The guard calls [query.strip()], which only a [str]
    has, and stands before the [try]. *)
Definition query_db (query : json) : M string :=
  match query with
  | JStr q =>
      if negb (startswith (str_upper rt (str_strip rt q)) "SELECT")
      then ret only_select
      else try_except (query_db_try q) db_error
  | _ => raise (AttributeError (type_name query) "strip")
  end.

Definition list_tables_sql : string :=
  join LF [ "";
            "                SELECT table_name ";
            "                FROM information_schema.tables ";
            "                WHERE table_schema='public'";
            "                ORDER BY table_name";
            "            " ].

(** [f"- {row[0]}"] *)
Definition bullet (r : row) : exn + string :=
  match r with
  | [] => inl (LibraryError "tuple index out of range")
  | (_, v) :: _ => inr ("- " ++ v)
  end.

Fixpoint bullets (rows : list row) : exn + list string :=
  match rows with
  | [] => inr []
  | r :: rest =>
      match bullet r with
      | inl e => inl e
      | inr b =>
          match bullets rest with
          | inl e => inl e
          | inr bs => inr (b :: bs)
          end
      end
  end.

Definition list_tables_try : M string :=
  conn <- get_conn ;;
  rows <- with_cursor conn
            (cur_execute conn (Stmt list_tables_sql []) ;;; cur_fetchall conn) ;;
  conn_close conn ;;;
  match rows with
  | [] => ret "No tables"
  | _ => bs <- lift (bullets rows) ;; ret (join LF bs)
  end.

Definition list_tables : M string :=
  try_except list_tables_try db_error.

Definition describe_table_sql : string :=
  join LF [ "";
            "                SELECT column_name, data_type, is_nullable ";
            "                FROM information_schema.columns";
            "                WHERE table_name=%s";
            "                ORDER BY ordinal_position";
            "            " ].

Definition describe_table_try (name : json) : M string :=
  conn <- get_conn ;;
  rows <- with_cursor conn
            (cur_execute conn (Stmt describe_table_sql [name]) ;;;
             cur_fetchall conn) ;;
  conn_close conn ;;;
  match rows with
  | [] => ret ("Table `" ++ py_str name ++ "` not found.")
  | _ => lift (json_dumps_rows rt false rows)
  end.

Definition describe_table (name : json) : M string :=
  try_except (describe_table_try name) db_error.

(** *** The dispatcher *)

(** [o.get(key, default)], which only a [dict] has. *)
Definition py_get (o : json) (key : string) (default : json) : M json :=
  match o with
  | JObj fields => ret (dict_get fields key default)
  | _ => raise (AttributeError (type_name o) "get")
  end.

Definition METHOD_NOT_FOUND : Z := (-32601)%Z.

Definition SERVER_ERROR : Z := (-32000)%Z.

Definition initialize_result : json :=
  JObj [ ("protocolVersion", JStr "2024-11-05");
         ("capabilities",
          JObj [("tools", JObj []); ("resources", JObj []); ("prompts", JObj [])]);
         ("serverInfo",
          JObj [("name", JStr "postgres-mcp"); ("version", JStr "1.0.0")]) ].

Definition tools_list_result : json :=
  JObj [ ("tools", JArr [
    JObj [ ("name", JStr "query_database");
           ("description", JStr "Execute SELECT query");
           ("inputSchema",
            JObj [ ("type", JStr "object");
                   ("properties", JObj [("query", JObj [("type", JStr "string")])]);
                   ("required", JArr [JStr "query"]) ]) ];
    JObj [ ("name", JStr "list_tables");
           ("description", JStr "List PostgreSQL tables");
           ("inputSchema", JObj [("type", JStr "object")]) ];
    JObj [ ("name", JStr "describe_table");
           ("description", JStr "Describe a table");
           ("inputSchema",
            JObj [ ("type", JStr "object");
                   ("properties",
                    JObj [("table_name", JObj [("type", JStr "string")])]);
                   ("required", JArr [JStr "table_name"]) ]) ] ]) ].

(** The [tools/call] branch of [handle], up to the text it wraps. *)
Definition call_tool (params : json) : M string :=
  tool <- py_get params "name" JNull ;;
  args <- py_get params "arguments" (JObj []) ;;
  if json_eq_str tool "query_database" then
    query <- py_get args "query" (JStr "") ;;
    query_db query
  else if json_eq_str tool "list_tables" then
    list_tables
  else if json_eq_str tool "describe_table" then
    name <- py_get args "table_name" (JStr "") ;;
    describe_table name
  else
    ret ("Unknown tool: " ++ py_str tool).

(** [handle(msg)]: the response object, or [None]. *)
Definition handle (msg : json) : M (option dict) :=
  method <- py_get msg "method" JNull ;;
  msg_id <- py_get msg "id" JNull ;;
  params <- py_get msg "params" (JObj []) ;;
  log ("Received → " ++ py_str method) ;;;
  if json_eq_str method "initialize" then
    ret (Some [("id", msg_id); ("result", initialize_result)])
  else if json_eq_str method "tools/list" then
    ret (Some [("id", msg_id); ("result", tools_list_result)])
  else if json_eq_str method "tools/call" then
    out <- call_tool params ;;
    ret (Some [("id", msg_id);
               ("result", JObj [("content", JArr [format_text (JStr out)])])])
  else if json_eq_str method "notifications/initialized" then
    ret None
  else
    ret (Some [("id", msg_id);
               ("error", JObj [("code", JInt METHOD_NOT_FOUND);
                               ("message",
                                JStr ("Unknown method: " ++ py_str method))])]).

(** *** The read loop *)

Inductive outcome : Type :=
| Exited (w : world)
| Crashed (e : exn) (w : world).

Definition world_of (o : outcome) : world :=
  match o with Exited w => w | Crashed _ w => w end.

(** [if response:] for what [handle] returned: [None] and the empty
    [dict] are false. *)
Definition truthy (response : option dict) : bool :=
  match response with
  | Some (_ :: _) => true
  | _ => false
  end.

(** The [try] block of a turn of the loop.  The local variable [msg] is
    unbound ([None]) until [json.loads] first returns, and keeps the last
    value assigned to it: when [json.loads] raises, [msg] is what it was. *)
Definition try_block (line : string) (msg : option json)
  : option json * M unit :=
  match json_loads rt line with
  | inl e => (msg, raise e)
  | inr m =>
      (Some m,
       response <- handle m ;;
       match response with
       | Some r => if truthy response then send r else ret tt
       | None => ret tt
       end)
  end.

(** The [except Exception as e] block of a turn. *)
Definition except_block (msg : option json) (e : exn) : M unit :=
  match msg with
  | None => raise (UnboundLocalError "msg")
  | Some m =>
      msg_id <- py_get m "id" JNull ;;
      send [("id", msg_id);
            ("error", JObj [("code", JInt SERVER_ERROR);
                            ("message", JStr (exn_str e))])]
  end.

(** One turn on a non-blank line: the new value of [msg] and the effect. *)
Definition turn (line : string) (msg : option json) : option json * M unit :=
  match try_block line msg with
  | (msg', body) => (msg', try_except body (except_block msg'))
  end.

(** [while True] over the successive results of [sys.stdin.readline()]:
    each line as read, with its line end; the empty string is the end of
    the stream, also after the last element of [stdin]. *)
Fixpoint main_loop (stdin : list string) (msg : option json) (w : world)
  : outcome :=
  match stdin with
  | [] => Exited w
  | line :: rest =>
      if String.eqb line "" then Exited w
      else
        let line := str_strip rt line in
        if String.eqb line "" then main_loop rest msg w
        else
          match turn line msg with
          | (msg', step) =>
              match step w with
              | (inr _, w') => main_loop rest msg' w'
              | (inl e, w') => Crashed e w'
              end
          end
  end.

Definition main (stdin : list string) : outcome :=
  main_loop stdin None (snd (log "PostgreSQL MCP Server Running" initial_world)).

End Program.

(** ** A concrete runtime *)

Module Fixture.

(** Python's white space below U+0080, as [str.isspace] has it. *)
Definition isspace (a : ascii) : bool :=
  let n := nat_of_ascii a in
  (Nat.leb 9 n && Nat.leb n 13) || (Nat.leb 28 n && Nat.leb n 32).

Fixpoint lstrip (s : string) : string :=
  match s with
  | String a rest => if isspace a then lstrip rest else s
  | EmptyString => EmptyString
  end.

Fixpoint rstrip (s : string) : string :=
  match s with
  | String a rest =>
      match rstrip rest with
      | EmptyString => if isspace a then EmptyString else String a EmptyString
      | kept => String a kept
      end
  | EmptyString => EmptyString
  end.

(** [str.strip] and [str.upper] on text below U+0080; other bytes are left
    as they are. *)
Definition strip (s : string) : string := rstrip (lstrip s).

Definition upper_ascii (a : ascii) : ascii :=
  let n := nat_of_ascii a in
  if Nat.leb 97 n && Nat.leb n 122 then ascii_of_nat (n - 32) else a.

Fixpoint upper (s : string) : string :=
  match s with
  | String a rest => String (upper_ascii a) (upper rest)
  | EmptyString => EmptyString
  end.

(** [repr] of a value whose strings need no escape. *)
Fixpoint repr (v : json) : string :=
  match v with
  | JNull => "None"
  | JBool true => "True"
  | JBool false => "False"
  | JInt z => NilZero.string_of_int (Z.to_int z)
  | JFloat literal => literal
  | JStr s => "'" ++ s ++ "'"
  | JArr items => "[" ++ join ", " (map repr items) ++ "]"
  | JObj fields =>
      "{" ++ join ", " (map (fun kv => "'" ++ fst kv ++ "': " ++ repr (snd kv))
                            fields) ++ "}"
  end.

Definition DQ : string := String (ascii_of_nat 34) EmptyString.

(** A line of JSON written with apostrophes for its double quotes. *)
Fixpoint js (s : string) : string :=
  match s with
  | String a rest =>
      String (if Ascii.eqb a "'"%char then ascii_of_nat 34 else a) (js rest)
  | EmptyString => EmptyString
  end.

(** [json.dumps(rows, indent=2)] for rows of text. *)
Definition dumps_row (r : row) : string :=
  "  {" ++ LF
  ++ join ("," ++ LF)
       (map (fun kv => "    " ++ DQ ++ fst kv ++ DQ ++ ": " ++ DQ ++ snd kv ++ DQ) r)
  ++ LF ++ "  }".

Definition dumps_rows (_ : bool) (rows : list row) : exn + string :=
  inr ("[" ++ LF ++ join ("," ++ LF) (map dumps_row rows) ++ LF ++ "]").

(** The messages the examples read, with what [json.loads] makes of them. *)
Definition tools_list_line : string :=
  js "{'jsonrpc': '2.0', 'id': 1, 'method': 'tools/list'}".

Definition tools_list_msg : json :=
  JObj [("jsonrpc", JStr "2.0"); ("id", JInt 1); ("method", JStr "tools/list")].

Definition initialized_line : string :=
  js "{'method': 'notifications/initialized'}".

Definition initialized_msg : json :=
  JObj [("method", JStr "notifications/initialized")].

Definition initialized_id_line : string :=
  js "{'id': 7, 'method': 'notifications/initialized'}".

Definition initialized_id_msg : json :=
  JObj [("id", JInt 7); ("method", JStr "notifications/initialized")].

Definition ping_line : string := js "{'method': 'ping'}".

Definition ping_msg : json := JObj [("method", JStr "ping")].

Definition bogus_line : string :=
  js "{'method': 'tools/call', 'params': {'name': 'bogus'}}".

Definition bogus_msg : json :=
  JObj [("method", JStr "tools/call");
        ("params", JObj [("name", JStr "bogus")])].

Definition number_query_line : string :=
  js ("{'id': 2, 'method': 'tools/call', 'params': "
      ++ "{'name': 'query_database', 'arguments': {'query': 42}}}").

Definition number_query_msg : json :=
  JObj [("id", JInt 2); ("method", JStr "tools/call");
        ("params", JObj [("name", JStr "query_database");
                         ("arguments", JObj [("query", JInt 42)])])].

Definition missing_query_line : string :=
  js ("{'id': 3, 'method': 'tools/call', 'params': {'name': 'query_database', "
      ++ "'arguments': {'query': 'SELECT * FROM missing'}}}").

Definition missing_query_msg : json :=
  JObj [("id", JInt 3); ("method", JStr "tools/call");
        ("params", JObj [("name", JStr "query_database");
                         ("arguments",
                          JObj [("query", JStr "SELECT * FROM missing")])])].

Definition no_arguments_line : string :=
  js "{'id': 4, 'method': 'tools/call', 'params': {'name': 'query_database'}}".

Definition no_arguments_msg : json :=
  JObj [("id", JInt 4); ("method", JStr "tools/call");
        ("params", JObj [("name", JStr "query_database")])].

Definition array_line : string := "[1]".

Definition array_msg : json := JArr [JInt 1].

Definition garbage_line : string := "not json".

Definition messages : list (string * json) :=
  [ (tools_list_line, tools_list_msg);
    (initialized_line, initialized_msg);
    (initialized_id_line, initialized_id_msg);
    (ping_line, ping_msg);
    (bogus_line, bogus_msg);
    (number_query_line, number_query_msg);
    (missing_query_line, missing_query_msg);
    (no_arguments_line, no_arguments_msg);
    (array_line, array_msg) ].

(** [json.loads] on the lines above; [garbage_line], like every text that
    does not start a JSON value, is refused at its first character. *)
Definition loads (line : string) : exn + json :=
  match dict_lookup messages line with
  | Some msg => inr msg
  | None => inl (LibraryError "Expecting value: line 1 column 1 (char 0)")
  end.

(** A database that is up, holds the tables [a] and [b] and no relation
    [missing]. *)
Definition connect (_ : list db_event) : option exn := None.

Definition execute (_ : list db_event) (s : statement) : option exn :=
  match s with
  | Stmt sql _ =>
      if String.eqb sql "SELECT * FROM missing"
      then Some (LibraryError "relation missing does not exist")
      else None
  end.

Definition fetchall (log : list db_event) : exn + list row :=
  match last log (Close 0) with
  | Execute _ (Stmt sql _) =>
      if String.eqb sql list_tables_sql
      then inr [[("table_name", "a")]; [("table_name", "b")]]
      else inr []
  | _ => inl (LibraryError "no results to fetch")
  end.

Definition runtime : Runtime :=
  mkRuntime loads dumps_rows strip upper repr connect execute fetchall.

(** The same runtime with the database down. *)
Definition refused (_ : list db_event) : option exn :=
  Some (LibraryError "connection refused").

Definition runtime_down : Runtime :=
  mkRuntime loads dumps_rows strip upper repr refused execute fetchall.

(** The same runtime with a database that refuses every statement. *)
Definition denied (_ : list db_event) (_ : statement) : option exn :=
  Some (LibraryError "permission denied").

Definition runtime_denied : Runtime :=
  mkRuntime loads dumps_rows strip upper repr connect denied fetchall.

(** The same runtime with a database that accepts every statement and
    holds no rows. *)
Definition accepted (_ : list db_event) (_ : statement) : option exn := None.

Definition no_rows (_ : list db_event) : exn + list row := inr [].

Definition runtime_empty : Runtime :=
  mkRuntime loads dumps_rows strip upper repr connect accepted no_rows.

End Fixture.

(** ** Vocabulary of the statements *)

Definition known_methods : list string :=
  ["initialize"; "tools/list"; "tools/call"; "notifications/initialized"].

Definition tool_names : list string :=
  ["query_database"; "list_tables"; "describe_table"].

(** The world after [handle] has logged the method it received. *)
Definition received (rt : Runtime) (fields : dict) (w : world) : world :=
  mkWorld (db_log w) (stdout w)
    (snoc (stderr w)
       ("[PG-MCP] Received → " ++ py_str rt (dict_get fields "method" JNull))).

Definition result_response (msg_id result : json) : dict :=
  [("id", msg_id); ("result", result)].

Definition error_response (msg_id : json) (code : Z) (message : string) : dict :=
  [("id", msg_id);
   ("error", JObj [("code", JInt code); ("message", JStr message)])].

(** The result of a tool call: one text content block. *)
Definition tool_result (rt : Runtime) (out : string) : json :=
  JObj [("content", JArr [format_text rt (JStr out)])].

(** A computation that leaves standard output and standard error as they
    were: it can only call the database driver. *)
Definition quiet {A} (m : M A) : Prop :=
  forall w, stdout (snd (m w)) = stdout w /\ stderr (snd (m w)) = stderr w.

(** What [send] prints for [resp]. *)
Definition framed (resp : dict) : dict := setdefault resp "jsonrpc" (JStr "2.0").

Definition printed (w : world) (resp : dict) : world :=
  mkWorld (db_log w) (snoc (stdout w) (framed resp)) (stderr w).

Definition valid_error (v : json) : bool :=
  match v with
  | JObj e =>
      match dict_lookup e "code", dict_lookup e "message" with
      | Some (JInt _), Some (JStr _) => true
      | _, _ => false
      end
  | _ => false
  end.

(** A response line: [jsonrpc] is 2.0, there is an [id], and there is
    either a [result] or a well-formed [error], not both. *)
Definition valid_response (d : dict) : bool :=
  match dict_lookup d "jsonrpc" with
  | Some (JStr v) => String.eqb v "2.0"
  | _ => false
  end
  && has_key d "id"
  && match dict_lookup d "result", dict_lookup d "error" with
     | Some _, None => true
     | None, Some e => valid_error e
     | _, _ => false
     end.

(** The sentence of the specification: a message is answered when, and
    only when, it carries an id. *)
Definition answered_iff_id (rt : Runtime) : Prop :=
  forall (line : string) (fields : dict) (msg0 : option json) (w : world),
    json_loads rt line = inr (JObj fields) ->
    length (stdout (snd (snd (turn rt line msg0) w)))
    = length (stdout w) + (if has_key fields "id" then 1 else 0).

(** The request has no [arguments] mapping, or has one without [key]. *)
Definition argument_absent (ps : dict) (key : string) : bool :=
  match dict_lookup ps "arguments" with
  | None => true
  | Some (JObj args) => negb (has_key args key)
  | Some _ => false
  end.

(** ** Vocabulary of the further properties *)

(** The connection an event is about. *)
Definition conn_of (ev : db_event) : nat :=
  match ev with
  | Connect c | ConnectFailed c | Cursor c | Execute c _ | Fetchall c
  | CursorClose c | Close c => c
  end.

(** The numbers of the connections attempted, in the order of the log. *)
Definition attempt_ids (log : list db_event) : list nat :=
  map conn_of (filter is_attempt log).

(** The part the three [try] blocks have in common: connect, run one
    statement in a cursor block, close the connection, make the text. *)
Definition db_call (rt : Runtime) (s : statement)
    (finish : list row -> M string) : M string :=
  conn <- get_conn rt ;;
  rows <- with_cursor conn (cur_execute rt conn s ;;; cur_fetchall rt conn) ;;
  conn_close conn ;;;
  finish rows.

Definition query_db_finish (rt : Runtime) (rows : list row) : M string :=
  match rows with
  | [] => ret "No results"
  | _ => lift (json_dumps_rows rt true rows)
  end.

Definition list_tables_finish (rows : list row) : M string :=
  match rows with
  | [] => ret "No tables"
  | _ => bs <- lift (bullets rows) ;; ret (join LF bs)
  end.

Definition describe_table_finish (rt : Runtime) (name : json)
    (rows : list row) : M string :=
  match rows with
  | [] => ret ("Table `" ++ py_str rt name ++ "` not found.")
  | _ => lift (json_dumps_rows rt false rows)
  end.

(** The driver calls of one database function that runs [s] on the log
    [log], as the database decides them. *)
Definition driver_calls (rt : Runtime) (log : list db_event) (s : statement)
  : list db_event :=
  let c := count_attempts log in
  match db_connect rt log with
  | Some _ => [ConnectFailed c]
  | None =>
      match db_execute rt (log ++ [Connect c; Cursor c])%list s with
      | Some _ => [Connect c; Cursor c; Execute c s; CursorClose c]
      | None =>
          match db_fetchall rt (log ++ [Connect c; Cursor c; Execute c s])%list with
          | inl _ =>
              [Connect c; Cursor c; Execute c s; Fetchall c; CursorClose c]
          | inr _ =>
              [Connect c; Cursor c; Execute c s; Fetchall c; CursorClose c;
               Close c]
          end
      end
  end.

(** A computation that leaves the driver log as it was. *)
Definition silent {A} (m : M A) : Prop :=
  forall w, db_log (snd (m w)) = db_log w.

(** A computation that runs at most one database function. *)
Definition at_most_one_call {A} (rt : Runtime) (m : M A) : Prop :=
  forall w,
    db_log (snd (m w)) = db_log w
    \/ exists s,
         db_log (snd (m w)) = (db_log w ++ driver_calls rt (db_log w) s)%list.

(** A line the loop skips: not the end of the stream, and empty once
    stripped. *)
Definition is_blank (rt : Runtime) (line : string) : bool :=
  negb (String.eqb line "") && String.eqb (str_strip rt line) "".

(** A line that is read as a JSON object. *)
Definition is_object_line (rt : Runtime) (line : string) : bool :=
  negb (String.eqb line "") && negb (String.eqb (str_strip rt line) "")
  && match json_loads rt (str_strip rt line) with
     | inr (JObj _) => true
     | _ => false
     end.

(** A line that is blank, not JSON, or a JSON object. *)
Definition is_served (rt : Runtime) (line : string) : bool :=
  negb (String.eqb line "")
  && (String.eqb (str_strip rt line) ""
      || match json_loads rt (str_strip rt line) with
         | inr (JObj _) => true
         | inl _ => true
         | inr _ => false
         end).

(** The number of response lines a served line is answered with. *)
Definition answers (rt : Runtime) (line : string) : nat :=
  if String.eqb (str_strip rt line) "" then 0
  else
    match json_loads rt (str_strip rt line) with
    | inl _ => 1
    | inr (JObj fields) =>
        if json_eq_str (dict_get fields "method" JNull)
                       "notifications/initialized"
        then 0 else 1
    | inr _ => 0
    end.

(** The names of the tools in the result of tools/list. *)
Definition advertised_tools (result : json) : list json :=
  match result with
  | JObj fields =>
      match dict_get fields "tools" JNull with
      | JArr tools =>
          map (fun tool => match tool with
                           | JObj t => dict_get t "name" JNull
                           | _ => JNull
                           end) tools
      | _ => []
      end
  | _ => []
  end.

(** On the log [log], the statement [s] raises in [execute] or in
    [fetchall]. *)
Definition statement_fails (rt : Runtime) (log : list db_event) (s : statement)
  : bool :=
  let c := count_attempts log in
  match db_execute rt (log ++ [Connect c; Cursor c])%list s with
  | Some _ => true
  | None =>
      match db_fetchall rt (log ++ [Connect c; Cursor c; Execute c s])%list with
      | inl _ => true
      | inr _ => false
      end
  end.

(** The text of the first column of a row. *)
Definition first_value (r : row) : string :=
  match r with
  | (_, v) :: _ => v
  | [] => ""
  end.


(** The rows a call that runs [s] on the log [log] gets from [fetchall],
    when the driver raises nothing. *)
Definition statement_rows (rt : Runtime) (log : list db_event) (s : statement)
  : option (list row) :=
  let c := count_attempts log in
  match db_connect rt log with
  | Some _ => None
  | None =>
      match db_execute rt (log ++ [Connect c; Cursor c])%list s with
      | Some _ => None
      | None =>
          match db_fetchall rt (log ++ [Connect c; Cursor c; Execute c s])%list with
          | inl _ => None
          | inr rows => Some rows
          end
      end
  end.


Definition is_execute (c : nat) (ev : db_event) : bool :=
  match ev with Execute c' _ => Nat.eqb c' c | _ => false end.

(** * Properties *)

(** ** Running computations *)

(** Unfold the dispatcher down to its tests on the method. *)
Ltac run_handle :=
  unfold handle, py_get, log, bind, ret;
  cbn [json_eq_str String.eqb Ascii.eqb Bool.eqb].

(** ** C4: the SELECT guard *)

Section Guard.

Variable rt : Runtime.

(** C4.  A query text whose stripped, upper-cased form does not start with
    SELECT gets the fixed refusal, which does not carry the database error
    marker, and the world is left as it was: the driver was not called,
    so no connection was opened. *)
Theorem query_db_rejects_non_select (q : string) (w : world) :
  startswith (str_upper rt (str_strip rt q)) "SELECT" = false ->
  query_db rt (JStr q) w = (inr only_select, w)
  /\ startswith only_select db_error_marker = false
  /\ db_log (snd (query_db rt (JStr q) w)) = db_log w.
Proof.
  intros Hguard.
  assert (Hrun : query_db rt (JStr q) w = (inr only_select, w)).
  { unfold query_db. rewrite Hguard. reflexivity. }
  split; [exact Hrun|]. split; [reflexivity|].
  rewrite Hrun. reflexivity.
Qed.

End Guard.

Lemma query_db_rejects_non_select_witness :
  query_db Fixture.runtime (JStr "  drop table users; ") initial_world
    = (inr only_select, initial_world)
  /\ startswith only_select db_error_marker = false
  /\ db_log (snd (query_db Fixture.runtime (JStr "  drop table users; ")
                             initial_world))
     = db_log initial_world.
Proof.
  apply (query_db_rejects_non_select Fixture.runtime "  drop table users; ").
  reflexivity.
Defined.

Example query_db_accepts_lower_case_select :
  fst (query_db Fixture.runtime (JStr "  select 1 ") initial_world)
    = inr "No results".
Proof. reflexivity. Qed.

(** ** The dispatcher on a JSON object *)

Section Dispatcher.

Variable rt : Runtime.

Lemma handle_unknown_method (fields : dict) (w : world) :
  existsb (json_eq_str (dict_get fields "method" JNull)) known_methods = false ->
  handle rt (JObj fields) w
  = (inr (Some (error_response (dict_get fields "id" JNull) METHOD_NOT_FOUND
                  ("Unknown method: "
                   ++ py_str rt (dict_get fields "method" JNull)))),
     received rt fields w).
Proof.
  intros H. cbn [existsb known_methods] in H.
  repeat (apply orb_false_elim in H; destruct H as [? H]).
  run_handle. repeat match goal with E : json_eq_str _ _ = false |- _ =>
                       rewrite E; clear E end.
  reflexivity.
Qed.

Lemma handle_notification (fields : dict) (w : world) :
  json_eq_str (dict_get fields "method" JNull) "notifications/initialized" = true ->
  handle rt (JObj fields) w = (inr None, received rt fields w).
Proof.
  intros H. destruct (dict_get fields "method" JNull) eqn:E; try discriminate.
  cbn in H. apply String.eqb_eq in H. subst s.
  run_handle. rewrite E. cbn [json_eq_str String.eqb Ascii.eqb Bool.eqb].
  unfold received. rewrite E. reflexivity.
Qed.

Lemma handle_tools_call (fields : dict) (w : world) :
  json_eq_str (dict_get fields "method" JNull) "tools/call" = true ->
  handle rt (JObj fields) w
  = match call_tool rt (dict_get fields "params" (JObj [])) (received rt fields w) with
    | (inr out, w') =>
        (inr (Some (result_response (dict_get fields "id" JNull)
                      (tool_result rt out))), w')
    | (inl e, w') => (inl e, w')
    end.
Proof.
  intros H. destruct (dict_get fields "method" JNull) eqn:E; try discriminate.
  cbn in H. apply String.eqb_eq in H. subst s.
  run_handle. rewrite E. cbn [json_eq_str String.eqb Ascii.eqb Bool.eqb].
  unfold received. rewrite E.
  destruct (call_tool rt _ _) as [[e|out] w']; reflexivity.
Qed.

Lemma handle_initialize (fields : dict) (w : world) :
  json_eq_str (dict_get fields "method" JNull) "initialize" = true ->
  handle rt (JObj fields) w
  = (inr (Some (result_response (dict_get fields "id" JNull) initialize_result)),
     received rt fields w).
Proof.
  intros H. destruct (dict_get fields "method" JNull) eqn:E; try discriminate.
  cbn in H. apply String.eqb_eq in H. subst s.
  run_handle. rewrite E. cbn [json_eq_str String.eqb Ascii.eqb Bool.eqb].
  unfold received. rewrite E. reflexivity.
Qed.

Lemma handle_tools_list (fields : dict) (w : world) :
  json_eq_str (dict_get fields "method" JNull) "tools/list" = true ->
  handle rt (JObj fields) w
  = (inr (Some (result_response (dict_get fields "id" JNull) tools_list_result)),
     received rt fields w).
Proof.
  intros H. destruct (dict_get fields "method" JNull) eqn:E; try discriminate.
  cbn in H. apply String.eqb_eq in H. subst s.
  run_handle. rewrite E. cbn [json_eq_str String.eqb Ascii.eqb Bool.eqb].
  unfold received. rewrite E. reflexivity.
Qed.

(** The five branches of [handle]. *)
Lemma method_cases (method : json) :
  json_eq_str method "initialize" = true
  \/ json_eq_str method "tools/list" = true
  \/ json_eq_str method "tools/call" = true
  \/ json_eq_str method "notifications/initialized" = true
  \/ existsb (json_eq_str method) known_methods = false.
Proof.
  cbn [existsb known_methods].
  destruct (json_eq_str method "initialize"); [now left|right].
  destruct (json_eq_str method "tools/list"); [now left|right].
  destruct (json_eq_str method "tools/call"); [now left|right].
  destruct (json_eq_str method "notifications/initialized"); [now left|right].
  reflexivity.
Qed.

(** *** Tool calls *)

Lemma call_tool_unknown (ps : dict) (w : world) :
  existsb (json_eq_str (dict_get ps "name" JNull)) tool_names = false ->
  call_tool rt (JObj ps) w
  = (inr ("Unknown tool: " ++ py_str rt (dict_get ps "name" JNull)), w).
Proof.
  intros H. cbn [existsb tool_names] in H.
  repeat (apply orb_false_elim in H; destruct H as [? H]).
  unfold call_tool, py_get, bind, ret.
  repeat match goal with E : json_eq_str _ _ = false |- _ =>
           rewrite E; clear E end.
  reflexivity.
Qed.

Lemma call_tool_query_database (ps args : dict) (w : world) :
  dict_get ps "name" JNull = JStr "query_database" ->
  dict_get ps "arguments" (JObj []) = JObj args ->
  call_tool rt (JObj ps) w = query_db rt (dict_get args "query" (JStr "")) w.
Proof.
  intros Hname Hargs. unfold call_tool, py_get, bind, ret.
  rewrite Hname, Hargs. cbn [json_eq_str String.eqb Ascii.eqb Bool.eqb].
  destruct (query_db rt _ w) as [[e|out] w']; reflexivity.
Qed.

Lemma call_tool_list_tables (ps : dict) (w : world) :
  dict_get ps "name" JNull = JStr "list_tables" ->
  call_tool rt (JObj ps) w = list_tables rt w.
Proof.
  intros Hname. unfold call_tool, py_get, bind, ret.
  rewrite Hname. cbn [json_eq_str String.eqb Ascii.eqb Bool.eqb]. reflexivity.
Qed.

Lemma call_tool_describe_table (ps args : dict) (w : world) :
  dict_get ps "name" JNull = JStr "describe_table" ->
  dict_get ps "arguments" (JObj []) = JObj args ->
  call_tool rt (JObj ps) w
  = describe_table rt (dict_get args "table_name" (JStr "")) w.
Proof.
  intros Hname Hargs. unfold call_tool, py_get, bind, ret.
  rewrite Hname, Hargs. cbn [json_eq_str String.eqb Ascii.eqb Bool.eqb].
  destruct (describe_table rt _ w) as [[e|out] w']; reflexivity.
Qed.

(** The tool named by a request is one of the three, or none of them. *)
Lemma tool_cases (tool : json) :
  tool = JStr "query_database" \/ tool = JStr "list_tables"
  \/ tool = JStr "describe_table"
  \/ existsb (json_eq_str tool) tool_names = false.
Proof.
  cbn [existsb tool_names].
  destruct (json_eq_str tool "query_database") eqn:E1.
  { left. destruct tool; try discriminate. apply String.eqb_eq in E1. now subst. }
  destruct (json_eq_str tool "list_tables") eqn:E2.
  { right; left. destruct tool; try discriminate.
    apply String.eqb_eq in E2. now subst. }
  destruct (json_eq_str tool "describe_table") eqn:E3.
  { right; right; left. destruct tool; try discriminate.
    apply String.eqb_eq in E3. now subst. }
  now right; right; right.
Qed.

End Dispatcher.

(** ** C7: unknown methods *)

(** C7.  A message whose method is none of the four known ones is answered
    by an error response that carries the method-not-found code, a message
    that names the method and the id of the request ([null] when it has
    none); that code and the code of the read loop's handler are two
    different negative integers. *)
Theorem unknown_method_is_error (rt : Runtime) (fields : dict) (w : world) :
  existsb (json_eq_str (dict_get fields "method" JNull)) known_methods = false ->
  fst (handle rt (JObj fields) w)
  = inr (Some [("id", dict_get fields "id" JNull);
               ("error",
                JObj [("code", JInt METHOD_NOT_FOUND);
                      ("message",
                       JStr ("Unknown method: "
                             ++ py_str rt (dict_get fields "method" JNull)))])])
  /\ (METHOD_NOT_FOUND < 0)%Z /\ (SERVER_ERROR < 0)%Z
  /\ METHOD_NOT_FOUND <> SERVER_ERROR.
Proof.
  intros H. rewrite (handle_unknown_method rt fields w H).
  repeat split; try reflexivity. discriminate.
Qed.

Lemma unknown_method_is_error_witness :
  fst (handle Fixture.runtime Fixture.ping_msg initial_world)
  = inr (Some [("id", JNull);
               ("error", JObj [("code", JInt (-32601));
                               ("message", JStr "Unknown method: ping")])])
  /\ (METHOD_NOT_FOUND < 0)%Z /\ (SERVER_ERROR < 0)%Z
  /\ METHOD_NOT_FOUND <> SERVER_ERROR.
Proof.
  apply (unknown_method_is_error Fixture.runtime
           [("method", JStr "ping")] initial_world).
  reflexivity.
Defined.

Example method_absent_is_unknown :
  fst (handle Fixture.runtime (JObj [("id", JInt 5)]) initial_world)
  = inr (Some (error_response (JInt 5) (-32601) "Unknown method: None")).
Proof. reflexivity. Qed.

(** ** C8: unknown tools *)

(** C8.  A tools/call request whose tool name is none of the three gets a
    result, not an error: one text content block that reads
    [Unknown tool: ] followed by the name. *)
Theorem unknown_tool_is_result (rt : Runtime) (fields ps : dict) (w : world) :
  dict_lookup fields "method" = Some (JStr "tools/call") ->
  dict_get fields "params" (JObj []) = JObj ps ->
  existsb (json_eq_str (dict_get ps "name" JNull)) tool_names = false ->
  handle rt (JObj fields) w
  = (inr (Some [("id", dict_get fields "id" JNull);
                ("result",
                 JObj [("content",
                        JArr [JObj [("type", JStr "text");
                                    ("text",
                                     JStr ("Unknown tool: "
                                           ++ py_str rt (dict_get ps "name" JNull)))]])])]),
     received rt fields w).
Proof.
  intros Hmethod Hparams Htool.
  rewrite handle_tools_call.
  - rewrite Hparams, (call_tool_unknown rt ps _ Htool). reflexivity.
  - unfold dict_get. rewrite Hmethod. reflexivity.
Qed.

Lemma unknown_tool_is_result_witness :
  handle Fixture.runtime Fixture.bogus_msg initial_world
  = (inr (Some [("id", JNull);
                ("result",
                 JObj [("content",
                        JArr [JObj [("type", JStr "text");
                                    ("text", JStr "Unknown tool: bogus")]])])]),
     mkWorld [] [] ["[PG-MCP] Received → tools/call"]).
Proof.
  apply (unknown_tool_is_result Fixture.runtime
           [("method", JStr "tools/call");
            ("params", JObj [("name", JStr "bogus")])]
           [("name", JStr "bogus")] initial_world); reflexivity.
Defined.

(** ** The database functions never raise on a string *)

Section Gateway.

Variable rt : Runtime.


Lemma db_error_total (m : M string) (w : world) :
  exists out, fst (try_except m db_error w) = inr out.
Proof.
  unfold try_except. destruct (m w) as [[e|out] w']; cbn; eauto.
Qed.

Lemma query_db_total (q : string) (w : world) :
  exists out, fst (query_db rt (JStr q) w) = inr out.
Proof.
  unfold query_db.
  destruct (negb (startswith (str_upper rt (str_strip rt q)) "SELECT")).
  - exists only_select. reflexivity.
  - apply db_error_total.
Qed.

Lemma query_db_non_string (v : json) (w : world) :
  is_str v = false ->
  query_db rt v w = (inl (AttributeError (type_name v) "strip"), w).
Proof. destruct v; intros H; try discriminate H; reflexivity. Qed.

Lemma quiet_ret {A} (a : A) : quiet (ret a).
Proof. intros w. split; reflexivity. Qed.

Lemma quiet_raise {A} (e : exn) : quiet (@raise A e).
Proof. intros w. split; reflexivity. Qed.

Lemma quiet_lift {A} (r : exn + A) : quiet (lift r).
Proof. intros w. split; reflexivity. Qed.

Lemma quiet_bind {A B} (m : M A) (k : A -> M B) :
  quiet m -> (forall a, quiet (k a)) -> quiet (bind m k).
Proof.
  intros Hm Hk w. unfold bind. specialize (Hm w).
  destruct (m w) as [[e|a] w1]; cbn in *; [exact Hm|].
  destruct (Hk a w1) as [H1 H2]. destruct Hm as [H3 H4].
  split; congruence.
Qed.

Lemma quiet_try_except {A} (m : M A) (h : exn -> M A) :
  quiet m -> (forall e, quiet (h e)) -> quiet (try_except m h).
Proof.
  intros Hm Hh w. unfold try_except. specialize (Hm w).
  destruct (m w) as [[e|a] w1]; cbn in *; [|exact Hm].
  destruct (Hh e w1) as [H1 H2]. destruct Hm as [H3 H4].
  split; congruence.
Qed.

Lemma quiet_get_conn : quiet (get_conn rt).
Proof.
  intros w. unfold get_conn. destruct (db_connect rt (db_log w)); split; reflexivity.
Qed.

Lemma quiet_cur_execute (c : nat) (s : statement) : quiet (cur_execute rt c s).
Proof.
  intros w. unfold cur_execute. destruct (db_execute rt (db_log w) s); split; reflexivity.
Qed.

Lemma quiet_cur_fetchall (c : nat) : quiet (cur_fetchall rt c).
Proof. intros w. split; reflexivity. Qed.

Lemma quiet_conn_close (c : nat) : quiet (conn_close c).
Proof. intros w. split; reflexivity. Qed.

Lemma quiet_with_cursor {A} (c : nat) (body : M A) :
  quiet body -> quiet (with_cursor c body).
Proof.
  intros Hb w. unfold with_cursor.
  specialize (Hb (mkWorld (snoc (db_log w) (Cursor c)) (stdout w) (stderr w))).
  destruct (body _) as [r w1]. cbn in *. exact Hb.
Qed.

Lemma quiet_db_error (e : exn) : quiet (db_error e).
Proof. apply quiet_ret. Qed.

Create HintDb quiet.

#[local] Hint Resolve quiet_ret quiet_raise quiet_lift quiet_get_conn
  quiet_cur_execute quiet_cur_fetchall quiet_conn_close quiet_db_error : quiet.

Ltac quiet_steps :=
  repeat first
    [ apply quiet_bind; [|intros ?]
    | apply quiet_try_except; [|intros ?]
    | apply quiet_with_cursor
    | solve [auto with quiet]
    | match goal with |- quiet (match ?x with _ => _ end) => destruct x end
    | match goal with |- quiet (if ?b then _ else _) => destruct b end ].

Lemma quiet_query_db (query : json) : quiet (query_db rt query).
Proof. unfold query_db, query_db_try. quiet_steps. Qed.

Lemma quiet_list_tables : quiet (list_tables rt).
Proof. unfold list_tables, list_tables_try. quiet_steps. Qed.

Lemma quiet_describe_table (name : json) : quiet (describe_table rt name).
Proof. unfold describe_table, describe_table_try. quiet_steps. Qed.

Lemma quiet_py_get (o : json) (key : string) (default : json) :
  quiet (py_get o key default).
Proof. unfold py_get. destruct o; auto with quiet. Qed.

Lemma quiet_call_tool (params : json) : quiet (call_tool rt params).
Proof.
  unfold call_tool.
  repeat first
    [ apply quiet_bind; [|intros ?]
    | apply quiet_py_get | apply quiet_query_db | apply quiet_list_tables
    | apply quiet_describe_table | apply quiet_ret
    | match goal with |- quiet (if ?b then _ else _) => destruct b end ].
Qed.

End Gateway.

(** ** The read loop, one turn at a time *)

Section Transport.

Variable rt : Runtime.

Lemma handle_non_object (m : json) (w : world) :
  (forall fields, m <> JObj fields) ->
  handle rt m w = (inl (AttributeError (type_name m) "get"), w).
Proof.
  intros H. destruct m; try reflexivity. now destruct (H fields).
Qed.

Lemma stdout_received (fields : dict) (w : world) :
  stdout (received rt fields w) = stdout w.
Proof. reflexivity. Qed.

(** What [handle] can do with an object: nothing to say (only for
    notifications/initialized), a result, an error, or an exception; and
    it prints nothing itself. *)
Lemma handle_object_cases (fields : dict) (w : world) :
  let msg_id := dict_get fields "id" JNull in
  let initialized :=
    json_eq_str (dict_get fields "method" JNull) "notifications/initialized" in
  exists w', stdout w' = stdout w /\
    ((handle rt (JObj fields) w = (inr None, w') /\ initialized = true)
     \/ (exists res,
           handle rt (JObj fields) w = (inr (Some (result_response msg_id res)), w')
           /\ initialized = false)
     \/ (exists code message,
           handle rt (JObj fields) w
           = (inr (Some (error_response msg_id code message)), w')
           /\ initialized = false)
     \/ (exists e, handle rt (JObj fields) w = (inl e, w') /\ initialized = false)).
Proof.
  cbn zeta.
  destruct (method_cases (dict_get fields "method" JNull))
    as [H|[H|[H|[H|H]]]].
  - exists (received rt fields w). split; [reflexivity|]. right; left.
    exists initialize_result. split; [now apply handle_initialize|].
    destruct (dict_get fields "method" JNull); try discriminate.
    cbn in H. apply String.eqb_eq in H. now subst.
  - exists (received rt fields w). split; [reflexivity|]. right; left.
    exists tools_list_result. split; [now apply handle_tools_list|].
    destruct (dict_get fields "method" JNull); try discriminate.
    cbn in H. apply String.eqb_eq in H. now subst.
  - assert (Hinit : json_eq_str (dict_get fields "method" JNull)
                      "notifications/initialized" = false).
    { destruct (dict_get fields "method" JNull); try discriminate.
      cbn in H. apply String.eqb_eq in H. now subst. }
    rewrite (handle_tools_call rt fields w H).
    pose proof (quiet_call_tool rt (dict_get fields "params" (JObj []))
                  (received rt fields w)) as [Hout _].
    destruct (call_tool rt _ _) as [[e|out] w']; cbn in Hout;
      exists w'; (split; [exact Hout|]).
    + right; right; right. exists e. now split.
    + right; left. exists (tool_result rt out). now split.
  - exists (received rt fields w). split; [reflexivity|]. left.
    split; [now apply handle_notification|exact H].
  - exists (received rt fields w). split; [reflexivity|]. right; right; left.
    eexists _, _. split; [now apply handle_unknown_method|].
    cbn [existsb known_methods] in H.
    repeat (apply orb_false_elim in H; destruct H as [? H]). assumption.
Qed.

Lemma turn_parsed (line : string) (msg0 : option json) (m : json) :
  json_loads rt line = inr m ->
  turn rt line msg0
  = (Some m,
     try_except
       (response <- handle rt m ;;
        match response with
        | Some r => if truthy response then send r else ret tt
        | None => ret tt
        end)
       (except_block (Some m))).
Proof. intros H. unfold turn, try_block. rewrite H. reflexivity. Qed.

Lemma turn_unparsed (line : string) (msg0 : option json) (e : exn) :
  json_loads rt line = inl e ->
  turn rt line msg0 = (msg0, try_except (raise e) (except_block msg0)).
Proof. intros H. unfold turn, try_block. rewrite H. reflexivity. Qed.

(** A parsed object always gets through the turn: the loop goes on, and it
    has printed one valid response carrying the id of the message, or, for
    notifications/initialized only, nothing. *)
Lemma turn_object (line : string) (msg0 : option json) (fields : dict)
      (w : world) :
  json_loads rt line = inr (JObj fields) ->
  fst (turn rt line msg0) = Some (JObj fields)
  /\ exists w', snd (turn rt line msg0) w = (inr tt, w') /\
       if json_eq_str (dict_get fields "method" JNull) "notifications/initialized"
       then stdout w' = stdout w
       else exists d, stdout w' = snoc (stdout w) d
                      /\ valid_response d = true
                      /\ dict_lookup d "id" = Some (dict_get fields "id" JNull).
Proof.
  intros Hparse. rewrite (turn_parsed _ msg0 _ Hparse). split; [reflexivity|].
  cbn [snd]. unfold try_except, bind.
  destruct (handle_object_cases fields w)
    as (w' & Hout & [[H Hi]|[(res & H & Hi)|[(c & m & H & Hi)|(e & H & Hi)]]]);
    cbn zeta in Hi; rewrite H, Hi.
  - exists w'. now split.
  - eexists. split; [reflexivity|]. eexists. cbn [stdout]. rewrite Hout.
    split; [reflexivity|]. split; reflexivity.
  - eexists. split; [reflexivity|]. eexists. cbn [stdout]. rewrite Hout.
    split; [reflexivity|]. split; reflexivity.
  - eexists. split; [reflexivity|]. eexists. cbn [stdout]. rewrite Hout.
    split; [reflexivity|]. split; reflexivity.
Qed.

(** Whatever the line, a turn prints nothing or one valid response. *)
Lemma turn_prints_valid (line : string) (msg0 : option json) (w : world) :
  let w' := snd (snd (turn rt line msg0) w) in
  stdout w' = stdout w
  \/ exists d, stdout w' = snoc (stdout w) d /\ valid_response d = true.
Proof.
  cbn zeta. destruct (json_loads rt line) as [e|m] eqn:Hparse.
  - rewrite (turn_unparsed _ _ _ Hparse). cbn [snd].
    unfold try_except, raise, except_block.
    destruct msg0 as [m|]; [|now left].
    destruct m; try (now left).
    right. eexists. split; reflexivity.
  - destruct m;
      try (rewrite (turn_parsed _ _ _ Hparse); now left).
    destruct (turn_object line msg0 fields w Hparse) as (_ & w' & Hrun & Hout).
    rewrite Hrun. cbn [snd].
    destruct (json_eq_str _ _); [now left|].
    destruct Hout as (d & Hd & Hvalid & _). right. now exists d.
Qed.

Lemma main_loop_prints_valid (stdin : list string) :
  forall (msg : option json) (w : world),
    Forall (fun d => valid_response d = true) (stdout w) ->
    Forall (fun d => valid_response d = true)
           (stdout (world_of (main_loop rt stdin msg w))).
Proof.
  induction stdin as [|line rest IH]; intros msg w Hw; cbn [main_loop].
  - exact Hw.
  - destruct (String.eqb line ""); [exact Hw|].
    destruct (String.eqb (str_strip rt line) ""); [now apply IH|].
    pose proof (turn_prints_valid (str_strip rt line) msg w) as Hturn.
    cbn zeta in Hturn.
    destruct (turn rt (str_strip rt line) msg) as [msg' step].
    cbn [snd] in Hturn.
    assert (Hw' : Forall (fun d => valid_response d = true)
                         (stdout (snd (step w)))).
    { destruct Hturn as [Hsame|(d & Hd & Hvalid)].
      - now rewrite Hsame.
      - rewrite Hd. unfold snoc. apply Forall_app. split; [exact Hw|].
        now constructor. }
    destruct (step w) as [[e|[]] w']; cbn [snd] in Hw'.
    + exact Hw'.
    + now apply IH.
Qed.

End Transport.

(** ** C5: the shape of every response line *)

(** C5.  Whatever the input, every line that [main] has printed when it
    stops is an object with [jsonrpc] equal to 2.0 and an [id], holding
    either a [result] or an [error] with an integer code and a string
    message, never both. *)
Theorem every_response_is_valid (rt : Runtime) (stdin : list string) :
  Forall (fun d => valid_response d = true)
         (stdout (world_of (main rt stdin))).
Proof.
  unfold main. apply main_loop_prints_valid. constructor.
Qed.

Example valid_response_rejects_both :
  valid_response [("id", JNull); ("result", JNull);
                  ("error", JObj [("code", JInt 1); ("message", JStr "m")]);
                  ("jsonrpc", JStr "2.0")] = false.
Proof. reflexivity. Qed.

Example valid_response_rejects_neither :
  valid_response [("id", JNull); ("jsonrpc", JStr "2.0")] = false.
Proof. reflexivity. Qed.

(** ** C6: which messages are answered *)

(** The message [Fixture.ping_msg] has no id and is answered all the same,
    by an error response whose id is [null]. *)
Lemma message_without_id_is_answered :
  has_key [("method", JStr "ping")] "id" = false
  /\ stdout (world_of (main Fixture.runtime [Fixture.ping_line ++ LF]))
     = [[("id", JNull);
         ("error", JObj [("code", JInt (-32601));
                         ("message", JStr "Unknown method: ping")]);
         ("jsonrpc", JStr "2.0")]]
  /\ ~ answered_iff_id Fixture.runtime.
Proof.
  split; [reflexivity|]. split; [reflexivity|].
  intros H.
  specialize (H Fixture.ping_line [("method", JStr "ping")] None initial_world
                eq_refl).
  vm_compute in H. discriminate H.
Qed.

Example initialized_with_id_is_not_answered :
  stdout (world_of (main Fixture.runtime [Fixture.initialized_id_line ++ LF]))
  = [].
Proof. reflexivity. Qed.

(** C6, amended.  A message that is a JSON object is answered by exactly
    one line, carrying its id ([null] when it has none), unless its method
    is notifications/initialized, which is answered by no line; the id
    plays no part in the choice, and the loop goes on in both cases. *)
Theorem one_response_unless_initialized
    (rt : Runtime) (line : string) (msg0 : option json) (fields : dict)
    (w : world) :
  json_loads rt line = inr (JObj fields) ->
  exists w', snd (turn rt line msg0) w = (inr tt, w') /\
    if json_eq_str (dict_get fields "method" JNull) "notifications/initialized"
    then stdout w' = stdout w
    else exists d, stdout w' = snoc (stdout w) d
                   /\ dict_lookup d "id" = Some (dict_get fields "id" JNull).
Proof.
  intros Hparse.
  destruct (turn_object rt line msg0 fields w Hparse) as (_ & w' & Hrun & Hout).
  exists w'. split; [exact Hrun|].
  destruct (json_eq_str _ _); [exact Hout|].
  destruct Hout as (d & Hd & _ & Hid). now exists d.
Qed.

Lemma one_response_unless_initialized_witness :
  exists w',
    snd (turn Fixture.runtime Fixture.initialized_line None) initial_world
    = (inr tt, w') /\ stdout w' = [].
Proof.
  exact (one_response_unless_initialized Fixture.runtime
           Fixture.initialized_line None
           [("method", JStr "notifications/initialized")] initial_world
           eq_refl).
Defined.

Example initialized_prints_nothing :
  stdout (world_of (main Fixture.runtime [Fixture.initialized_line ++ LF])) = [].
Proof. reflexivity. Qed.

(** ** C1: a line that is not JSON *)

Section Unparseable.

Variable rt : Runtime.

(** When the first line that is not blank is not JSON, the handler reads
    [msg] before anything was assigned to it: [main] ends on that
    exception and prints nothing. *)
Lemma unparseable_first_line_crashes (line : string) (rest : list string)
      (e : exn) (w : world) :
  String.eqb line "" = false ->
  String.eqb (str_strip rt line) "" = false ->
  json_loads rt (str_strip rt line) = inl e ->
  main_loop rt (line :: rest) None w = Crashed (UnboundLocalError "msg") w.
Proof.
  intros Hline Hstrip Hparse. cbn [main_loop].
  rewrite Hline, Hstrip, (turn_unparsed rt _ _ _ Hparse). reflexivity.
Qed.

(** When an object was read before, the handler answers with the id of
    that earlier message. *)
Lemma unparseable_later_line_takes_old_id (line : string) (e : exn)
      (previous : dict) (w : world) :
  json_loads rt line = inl e ->
  turn rt line (Some (JObj previous))
  = (Some (JObj previous),
     try_except (raise e) (except_block (Some (JObj previous))))
  /\ snd (turn rt line (Some (JObj previous))) w
     = (inr tt,
        printed w (error_response (dict_get previous "id" JNull) SERVER_ERROR
                     (exn_str e))).
Proof.
  intros Hparse. rewrite (turn_unparsed rt _ _ _ Hparse). now split.
Qed.

(** A line that is JSON but not an object: [handle] raises on [msg.get],
    and so does the handler. *)
Lemma non_object_line_crashes (line : string) (rest : list string) (m : json)
      (msg0 : option json) (w : world) :
  String.eqb line "" = false ->
  String.eqb (str_strip rt line) "" = false ->
  json_loads rt (str_strip rt line) = inr m ->
  (forall fields, m <> JObj fields) ->
  main_loop rt (line :: rest) msg0 w
  = Crashed (AttributeError (type_name m) "get") w.
Proof.
  intros Hline Hstrip Hparse Hm. cbn [main_loop].
  rewrite Hline, Hstrip, (turn_parsed rt _ _ _ Hparse).
  unfold try_except, bind. rewrite (handle_non_object rt m w Hm).
  destruct m; try reflexivity. now destruct (Hm fields).
Qed.

End Unparseable.

(** C1, on the code.  The input is a line that is not JSON followed by a
    valid request.  [main] prints no error response for the first line and
    never reads the second: it ends on [UnboundLocalError]. *)
Theorem malformed_first_line_ends_main :
  json_loads Fixture.runtime Fixture.garbage_line
  = inl (LibraryError "Expecting value: line 1 column 1 (char 0)")
  /\ main Fixture.runtime
       [Fixture.garbage_line ++ LF; Fixture.tools_list_line ++ LF]
     = Crashed (UnboundLocalError "msg")
         (mkWorld [] [] ["[PG-MCP] PostgreSQL MCP Server Running"]).
Proof. split; reflexivity. Qed.

Example malformed_later_line_takes_old_id :
  stdout (world_of (main Fixture.runtime
                      [Fixture.tools_list_line ++ LF; Fixture.garbage_line ++ LF]))
  = [framed (result_response (JInt 1) tools_list_result);
     framed (error_response (JInt 1) (-32000)
               "Expecting value: line 1 column 1 (char 0)")].
Proof. reflexivity. Qed.

Example array_line_ends_main :
  main Fixture.runtime [Fixture.array_line ++ LF; Fixture.tools_list_line ++ LF]
  = Crashed (AttributeError "list" "get")
      (mkWorld [] [] ["[PG-MCP] PostgreSQL MCP Server Running"]).
Proof. reflexivity. Qed.

(** ** C2: the connection on the way out *)

Section Release.

Variable rt : Runtime.

Lemma existsb_snoc {A} (f : A -> bool) (l : list A) (x : A) :
  existsb f (snoc l x) = existsb f l || f x.
Proof.
  unfold snoc. rewrite existsb_app. cbn. now rewrite orb_false_r.
Qed.

(** The path that works: when the [try] block of [query_db] reaches its
    end, [conn.close()] was called on the connection it opened. *)
Lemma query_db_try_closes (q out : string) (w w' : world) :
  query_db_try rt q w = (inr out, w') ->
  existsb (is_close (count_attempts (db_log w))) (db_log w') = true.
Proof.
  unfold query_db_try, bind, get_conn, with_cursor, cur_execute, cur_fetchall,
    conn_close, emit, lift, ret.
  destruct (db_connect rt (db_log w)); [discriminate|].
  cbn [db_log stdout stderr].
  destruct (db_execute rt _ _); [discriminate|].
  cbn [db_log stdout stderr].
  destruct (db_fetchall rt _) as [e|rows]; [discriminate|].
  cbn [db_log stdout stderr].
  intros H.
  assert (Hlog : db_log w'
                 = (db_log w
                    ++ [Connect (count_attempts (db_log w));
                        Cursor (count_attempts (db_log w));
                        Execute (count_attempts (db_log w)) (Stmt q []);
                        Fetchall (count_attempts (db_log w));
                        CursorClose (count_attempts (db_log w));
                        Close (count_attempts (db_log w))])%list).
  { unfold snoc in H. repeat rewrite <- app_assoc in H.
    destruct rows; [|destruct (json_dumps_rows rt true _)];
      inversion H; reflexivity. }
  rewrite Hlog, existsb_app. cbn [existsb is_close]. rewrite Nat.eqb_refl.
  cbn [orb]. rewrite ?orb_true_r. reflexivity.
Qed.

(** The path that fails: when the connection is up and [cur.execute]
    raises, [query_db] returns the error text, the cursor was closed by
    its [with] block, and [conn.close()] was not called. *)
Lemma query_db_leaves_open (q : string) (e : exn) (w : world) :
  startswith (str_upper rt (str_strip rt q)) "SELECT" = true ->
  db_connect rt (db_log w) = None ->
  db_execute rt
    (snoc (snoc (db_log w) (Connect (count_attempts (db_log w))))
          (Cursor (count_attempts (db_log w))))
    (Stmt q []) = Some e ->
  query_db rt (JStr q) w
  = (inr (db_error_marker ++ exn_str e),
     mkWorld
       (db_log w ++ [Connect (count_attempts (db_log w));
                     Cursor (count_attempts (db_log w));
                     Execute (count_attempts (db_log w)) (Stmt q []);
                     CursorClose (count_attempts (db_log w))])%list
       (stdout w) (stderr w)).
Proof.
  intros Hguard Hconn Hexec.
  unfold query_db. rewrite Hguard. cbn [negb].
  unfold try_except, query_db_try, bind, get_conn, with_cursor, cur_execute.
  rewrite Hconn. cbn [db_log stdout stderr]. rewrite Hexec.
  cbn [db_log stdout stderr]. unfold db_error, ret, snoc.
  repeat rewrite <- app_assoc. reflexivity.
Qed.

End Release.

(** C2, on the code.  Each of the three functions, run against a database
    whose [execute] raises, returns its error text with its connection
    opened and never closed. *)
Theorem connection_left_open_on_error :
  query_db Fixture.runtime (JStr "SELECT * FROM missing") initial_world
  = (inr "❌ DB Error: relation missing does not exist",
     mkWorld [Connect 0; Cursor 0;
              Execute 0 (Stmt "SELECT * FROM missing" []); CursorClose 0]
             [] [])
  /\ left_open
       (db_log (snd (query_db Fixture.runtime (JStr "SELECT * FROM missing")
                       initial_world))) 0 = true
  /\ fst (list_tables Fixture.runtime_denied initial_world)
     = inr "❌ DB Error: permission denied"
  /\ left_open (db_log (snd (list_tables Fixture.runtime_denied initial_world))) 0
     = true
  /\ fst (describe_table Fixture.runtime_denied (JStr "users") initial_world)
     = inr "❌ DB Error: permission denied"
  /\ left_open
       (db_log (snd (describe_table Fixture.runtime_denied (JStr "users")
                       initial_world))) 0 = true.
Proof. repeat split; reflexivity. Qed.

Example connection_closed_on_success :
  db_log (snd (query_db Fixture.runtime (JStr "select 1") initial_world))
  = [Connect 0; Cursor 0; Execute 0 (Stmt "select 1" []); Fetchall 0;
     CursorClose 0; Close 0]
  /\ left_open
       (db_log (snd (query_db Fixture.runtime (JStr "select 1") initial_world)))
       0 = false.
Proof. split; reflexivity. Qed.

(** ** Failures of a tool, on the fixture *)

Example database_down_is_a_result :
  fst (handle Fixture.runtime_down Fixture.missing_query_msg initial_world)
  = inr (Some (result_response (JInt 3)
                 (tool_result Fixture.runtime_down
                    "❌ DB Error: connection refused"))).
Proof. reflexivity. Qed.

Example bad_sql_is_a_result :
  fst (handle Fixture.runtime Fixture.missing_query_msg initial_world)
  = inr (Some (result_response (JInt 3)
                 (tool_result Fixture.runtime
                    "❌ DB Error: relation missing does not exist"))).
Proof. reflexivity. Qed.

Example table_not_found_is_a_result :
  fst (describe_table Fixture.runtime (JStr "nonexistent") initial_world)
  = inr "Table `nonexistent` not found.".
Proof. reflexivity. Qed.

Example list_tables_sorted_bullets :
  fst (list_tables Fixture.runtime initial_world) = inr ("- a" ++ LF ++ "- b").
Proof. reflexivity. Qed.

(** ** C9: absent arguments *)

Lemma absent_argument_default (ps : dict) (key : string) :
  argument_absent ps key = true ->
  exists args, dict_get ps "arguments" (JObj []) = JObj args
               /\ dict_get args key (JStr "") = JStr "".
Proof.
  unfold argument_absent, dict_get, has_key.
  destruct (dict_lookup ps "arguments") as [[| | | | | |args]|];
    try discriminate.
  - intros H. exists args. split; [reflexivity|].
    destruct (dict_lookup args key); [discriminate|reflexivity].
  - intros _. exists []. split; reflexivity.
Qed.

(** C9.  In a tools/call request, when the argument a tool reads ([query]
    for query_database, [table_name] for describe_table) is absent,
    because there is no [arguments] mapping or because the mapping lacks
    that key, the tool is called with the empty string, as if the mapping
    were empty; whatever else the request carries, the dispatcher returns
    a result that holds the text the tool returned: nothing is raised. *)
Theorem absent_arguments_are_defaults
    (rt : Runtime) (fields ps : dict) (w : world) :
  dict_lookup fields "method" = Some (JStr "tools/call") ->
  dict_get fields "params" (JObj []) = JObj ps ->
  (json_eq_str (dict_get ps "name" JNull) "query_database" = true ->
   argument_absent ps "query" = true) ->
  (json_eq_str (dict_get ps "name" JNull) "describe_table" = true ->
   argument_absent ps "table_name" = true) ->
  (forall w0,
      call_tool rt (JObj ps) w0
      = (if json_eq_str (dict_get ps "name" JNull) "query_database"
         then query_db rt (JStr "") w0
         else if json_eq_str (dict_get ps "name" JNull) "list_tables"
         then list_tables rt w0
         else if json_eq_str (dict_get ps "name" JNull) "describe_table"
         then describe_table rt (JStr "") w0
         else (inr ("Unknown tool: " ++ py_str rt (dict_get ps "name" JNull)),
               w0)))
  /\ exists out w',
       call_tool rt (JObj ps) (received rt fields w) = (inr out, w')
       /\ handle rt (JObj fields) w
          = (inr (Some [("id", dict_get fields "id" JNull);
                        ("result",
                         JObj [("content",
                                JArr [JObj [("type", JStr "text");
                                            ("text", JStr out)]])])]),
             w').
Proof.
  intros Hmethod Hparams Hquery Htable.
  assert (Hcall : forall w0,
    call_tool rt (JObj ps) w0
    = (if json_eq_str (dict_get ps "name" JNull) "query_database"
       then query_db rt (JStr "") w0
       else if json_eq_str (dict_get ps "name" JNull) "list_tables"
       then list_tables rt w0
       else if json_eq_str (dict_get ps "name" JNull) "describe_table"
       then describe_table rt (JStr "") w0
       else (inr ("Unknown tool: " ++ py_str rt (dict_get ps "name" JNull)),
             w0))).
  { intros w0.
    destruct (tool_cases (dict_get ps "name" JNull)) as [H|[H|[H|H]]].
    - rewrite H in Hquery.
      destruct (absent_argument_default ps "query" (Hquery eq_refl))
        as (args & Hargs & Hq).
      rewrite (call_tool_query_database rt ps args _ H Hargs), Hq, H.
      reflexivity.
    - rewrite (call_tool_list_tables rt ps _ H), H. reflexivity.
    - rewrite H in Htable.
      destruct (absent_argument_default ps "table_name" (Htable eq_refl))
        as (args & Hargs & Ht).
      rewrite (call_tool_describe_table rt ps args _ H Hargs), Ht, H.
      reflexivity.
    - rewrite (call_tool_unknown rt ps _ H).
      cbn [existsb tool_names] in H.
      repeat (apply orb_false_elim in H; destruct H as [? H]).
      repeat match goal with E : json_eq_str _ _ = false |- _ =>
               rewrite E; clear E end.
      reflexivity. }
  split; [exact Hcall|].
  rewrite handle_tools_call by (unfold dict_get; now rewrite Hmethod).
  rewrite Hparams.
  assert (Hok : exists out,
             fst (call_tool rt (JObj ps) (received rt fields w)) = inr out).
  { rewrite Hcall.
    destruct (json_eq_str _ "query_database"); [apply query_db_total|].
    destruct (json_eq_str _ "list_tables"); [apply db_error_total|].
    destruct (json_eq_str _ "describe_table"); [apply db_error_total|].
    eexists. reflexivity. }
  destruct Hok as [out Hok].
  destruct (call_tool rt _ _) as [[e|out'] w']; cbn in Hok; [discriminate|].
  exists out', w'. split; reflexivity.
Qed.

Lemma absent_arguments_are_defaults_witness :
  (forall w0,
      call_tool Fixture.runtime
        (JObj [("name", JStr "query_database");
               ("arguments", JObj [("table_name", JStr "users")])]) w0
      = query_db Fixture.runtime (JStr "") w0)
  /\ exists out w',
       call_tool Fixture.runtime
         (JObj [("name", JStr "query_database");
                ("arguments", JObj [("table_name", JStr "users")])])
         (mkWorld [] [] ["[PG-MCP] Received → tools/call"])
       = (inr out, w')
       /\ handle Fixture.runtime
            (JObj [("id", JInt 4); ("method", JStr "tools/call");
                   ("params",
                    JObj [("name", JStr "query_database");
                          ("arguments", JObj [("table_name", JStr "users")])])])
            initial_world
          = (inr (Some [("id", JInt 4);
                        ("result",
                         JObj [("content",
                                JArr [JObj [("type", JStr "text");
                                            ("text", JStr out)]])])]),
             w').
Proof.
  apply (absent_arguments_are_defaults Fixture.runtime
           [("id", JInt 4); ("method", JStr "tools/call");
            ("params",
             JObj [("name", JStr "query_database");
                   ("arguments", JObj [("table_name", JStr "users")])])]
           [("name", JStr "query_database");
            ("arguments", JObj [("table_name", JStr "users")])]
           initial_world).
  - reflexivity.
  - reflexivity.
  - intros _. reflexivity.
  - intros H. discriminate H.
Defined.

Example query_without_query_key_is_refused :
  fst (handle Fixture.runtime
         (JObj [("id", JInt 4); ("method", JStr "tools/call");
                ("params",
                 JObj [("name", JStr "query_database");
                       ("arguments", JObj [("table_name", JStr "users")])])])
         initial_world)
  = inr (Some (result_response (JInt 4)
                 (tool_result Fixture.runtime only_select))).
Proof. reflexivity. Qed.

Example describe_table_without_table_name :
  fst (handle Fixture.runtime
         (JObj [("id", JInt 9); ("method", JStr "tools/call");
                ("params", JObj [("name", JStr "describe_table");
                                 ("arguments", JObj [])])])
         initial_world)
  = inr (Some (result_response (JInt 9)
                 (tool_result Fixture.runtime "Table `` not found."))).
Proof. reflexivity. Qed.

Example query_database_without_arguments :
  fst (handle Fixture.runtime Fixture.no_arguments_msg initial_world)
  = inr (Some (result_response (JInt 4)
                 (tool_result Fixture.runtime only_select))).
Proof. reflexivity. Qed.

(** ** C10: a query that is not a string *)

(** C10.  When the [query] argument of a query_database call is not a
    string, [query_db] raises on [query.strip] with the world untouched,
    so before its [try] block and before any connection; [handle] lets the
    exception through; and the read loop answers with one error response
    carrying its own code, the text of the exception and the id of the
    request, not with a result. *)
Theorem non_string_query_is_protocol_error
    (rt : Runtime) (line : string) (msg0 : option json)
    (fields ps args : dict) (w : world) :
  json_loads rt line = inr (JObj fields) ->
  dict_lookup fields "method" = Some (JStr "tools/call") ->
  dict_get fields "params" (JObj []) = JObj ps ->
  dict_get ps "name" JNull = JStr "query_database" ->
  dict_get ps "arguments" (JObj []) = JObj args ->
  is_str (dict_get args "query" (JStr "")) = false ->
  query_db rt (dict_get args "query" (JStr "")) w
  = (inl (AttributeError (type_name (dict_get args "query" (JStr ""))) "strip"),
     w)
  /\ handle rt (JObj fields) w
     = (inl (AttributeError (type_name (dict_get args "query" (JStr "")))
                            "strip"),
        received rt fields w)
  /\ snd (turn rt line msg0) w
     = (inr tt,
        mkWorld (db_log w)
          (snoc (stdout w)
             [("id", dict_get fields "id" JNull);
              ("error",
               JObj [("code", JInt SERVER_ERROR);
                     ("message",
                      JStr ("'" ++ type_name (dict_get args "query" (JStr ""))
                            ++ "' object has no attribute 'strip'"))]);
              ("jsonrpc", JStr "2.0")])
          (stderr (received rt fields w))).
Proof.
  intros Hparse Hmethod Hparams Hname Hargs Hquery.
  assert (Hhandle :
    handle rt (JObj fields) w
    = (inl (AttributeError (type_name (dict_get args "query" (JStr "")))
                           "strip"),
       received rt fields w)).
  { rewrite handle_tools_call by (unfold dict_get; now rewrite Hmethod).
    rewrite Hparams, (call_tool_query_database rt ps args _ Hname Hargs).
    now rewrite (query_db_non_string rt _ _ Hquery). }
  split; [now apply query_db_non_string|]. split; [exact Hhandle|].
  rewrite (turn_parsed rt _ msg0 _ Hparse). cbn [snd].
  unfold try_except, bind. rewrite Hhandle. reflexivity.
Qed.

Lemma non_string_query_is_protocol_error_witness :
  query_db Fixture.runtime (JInt 42) initial_world
  = (inl (AttributeError "int" "strip"), initial_world)
  /\ handle Fixture.runtime Fixture.number_query_msg initial_world
     = (inl (AttributeError "int" "strip"),
        mkWorld [] [] ["[PG-MCP] Received → tools/call"])
  /\ snd (turn Fixture.runtime Fixture.number_query_line None) initial_world
     = (inr tt,
        mkWorld []
          [[("id", JInt 2);
            ("error",
             JObj [("code", JInt (-32000));
                   ("message", JStr "'int' object has no attribute 'strip'")]);
            ("jsonrpc", JStr "2.0")]]
          ["[PG-MCP] Received → tools/call"]).
Proof.
  apply (non_string_query_is_protocol_error Fixture.runtime
           Fixture.number_query_line None
           [("id", JInt 2); ("method", JStr "tools/call");
            ("params", JObj [("name", JStr "query_database");
                             ("arguments", JObj [("query", JInt 42)])])]
           [("name", JStr "query_database");
            ("arguments", JObj [("query", JInt 42)])]
           [("query", JInt 42)] initial_world); reflexivity.
Defined.

Example null_query_is_protocol_error :
  fst (query_db Fixture.runtime JNull initial_world)
  = inl (AttributeError "NoneType" "strip").
Proof. reflexivity. Qed.

(** * Further properties *)

(** ** The driver calls of a database function *)

Section DriverCalls.

Variable rt : Runtime.

Lemma query_db_try_is_db_call (q : string) :
  query_db_try rt q = db_call rt (Stmt q []) (query_db_finish rt).
Proof. reflexivity. Qed.

Lemma list_tables_try_is_db_call :
  list_tables_try rt = db_call rt (Stmt list_tables_sql []) list_tables_finish.
Proof. reflexivity. Qed.

Lemma describe_table_try_is_db_call (name : json) :
  describe_table_try rt name
  = db_call rt (Stmt describe_table_sql [name]) (describe_table_finish rt name).
Proof. reflexivity. Qed.

(** [db_call], path by path. *)
Lemma db_call_run (s : statement) (finish : list row -> M string) (w : world) :
  let L := db_log w in
  let c := count_attempts L in
  db_call rt s finish w
  = match db_connect rt L with
    | Some e =>
        (inl e, mkWorld (L ++ [ConnectFailed c])%list (stdout w) (stderr w))
    | None =>
        match db_execute rt (L ++ [Connect c; Cursor c])%list s with
        | Some e =>
            (inl e,
             mkWorld (L ++ [Connect c; Cursor c; Execute c s; CursorClose c])%list
                     (stdout w) (stderr w))
        | None =>
            match db_fetchall rt (L ++ [Connect c; Cursor c; Execute c s])%list with
            | inl e =>
                (inl e,
                 mkWorld (L ++ [Connect c; Cursor c; Execute c s; Fetchall c;
                                CursorClose c])%list
                         (stdout w) (stderr w))
            | inr rows =>
                finish rows
                  (mkWorld (L ++ [Connect c; Cursor c; Execute c s; Fetchall c;
                                  CursorClose c; Close c])%list
                           (stdout w) (stderr w))
            end
        end
    end.
Proof.
  cbn zeta.
  unfold db_call, bind, get_conn, with_cursor, cur_execute, cur_fetchall,
    conn_close, emit, snoc.
  destruct (db_connect rt (db_log w)); [reflexivity|].
  cbn [db_log stdout stderr]. repeat rewrite <- app_assoc. cbn [app].
  destruct (db_execute rt _ s); cbn [db_log stdout stderr].
  { repeat rewrite <- app_assoc. reflexivity. }
  repeat rewrite <- app_assoc. cbn [app].
  destruct (db_fetchall rt _); cbn [db_log stdout stderr];
    repeat rewrite <- app_assoc; reflexivity.
Qed.

Lemma db_call_log (s : statement) (finish : list row -> M string) (w : world) :
  (forall rows w0, snd (finish rows w0) = w0) ->
  db_log (snd (db_call rt s finish w))
  = (db_log w ++ driver_calls rt (db_log w) s)%list.
Proof.
  intros Hpure. pose proof (db_call_run s finish w) as Hrun. cbn zeta in Hrun.
  rewrite Hrun. unfold driver_calls.
  destruct (db_connect rt (db_log w)); [reflexivity|].
  destruct (db_execute rt _ s); [reflexivity|].
  destruct (db_fetchall rt _); [reflexivity|].
  now rewrite Hpure.
Qed.

Lemma query_db_finish_pure (rows : list row) (w : world) :
  snd (query_db_finish rt rows w) = w.
Proof. destruct rows; reflexivity. Qed.

Lemma list_tables_finish_pure (rows : list row) (w : world) :
  snd (list_tables_finish rows w) = w.
Proof.
  destruct rows; [reflexivity|].
  unfold list_tables_finish, bind, lift, ret.
  destruct (bullets _); reflexivity.
Qed.

Lemma describe_table_finish_pure (name : json) (rows : list row) (w : world) :
  snd (describe_table_finish rt name rows w) = w.
Proof. destruct rows; reflexivity. Qed.

Lemma try_except_db_error_log (m : M string) (w : world) :
  db_log (snd (try_except m db_error w)) = db_log (snd (m w)).
Proof. unfold try_except. destruct (m w) as [[e|out] w']; reflexivity. Qed.

Lemma query_db_log (q : string) (w : world) :
  db_log (snd (query_db rt (JStr q) w))
  = if startswith (str_upper rt (str_strip rt q)) "SELECT"
    then (db_log w ++ driver_calls rt (db_log w) (Stmt q []))%list
    else db_log w.
Proof.
  unfold query_db.
  destruct (startswith (str_upper rt (str_strip rt q)) "SELECT");
    [|reflexivity].
  cbn [negb]. rewrite try_except_db_error_log, query_db_try_is_db_call.
  apply db_call_log, query_db_finish_pure.
Qed.

Lemma list_tables_log (w : world) :
  db_log (snd (list_tables rt w))
  = (db_log w ++ driver_calls rt (db_log w) (Stmt list_tables_sql []))%list.
Proof.
  unfold list_tables.
  rewrite try_except_db_error_log, list_tables_try_is_db_call.
  apply db_call_log, list_tables_finish_pure.
Qed.

Lemma describe_table_log (name : json) (w : world) :
  db_log (snd (describe_table rt name w))
  = (db_log w
     ++ driver_calls rt (db_log w) (Stmt describe_table_sql [name]))%list.
Proof.
  unfold describe_table.
  rewrite try_except_db_error_log, describe_table_try_is_db_call.
  apply db_call_log, describe_table_finish_pure.
Qed.

End DriverCalls.

(** X1.  What each database function asks of the driver, whatever the
    database answers: one connection attempt; when it succeeds, a cursor,
    one [execute] and the closing of the cursor; [fetchall] only after
    [execute] succeeded, and [conn.close()] only after [fetchall] did.
    [query_db] executes the query text as it was given, without
    parameters, and nothing at all when its guard refuses it;
    [describe_table] executes the same SQL text for every table name,
    which travels as the one bound parameter. *)
Theorem database_functions_driver_calls (rt : Runtime) :
  (forall q w,
      db_log (snd (query_db rt (JStr q) w))
      = if startswith (str_upper rt (str_strip rt q)) "SELECT"
        then (db_log w ++ driver_calls rt (db_log w) (Stmt q []))%list
        else db_log w)
  /\ (forall w,
        db_log (snd (list_tables rt w))
        = (db_log w
           ++ driver_calls rt (db_log w) (Stmt list_tables_sql []))%list)
  /\ (forall name w,
        db_log (snd (describe_table rt name w))
        = (db_log w
           ++ driver_calls rt (db_log w) (Stmt describe_table_sql [name]))%list).
Proof.
  split; [apply query_db_log|].
  split; [apply list_tables_log|apply describe_table_log].
Qed.

Example describe_table_binds_hostile_name :
  db_log (snd (describe_table Fixture.runtime_empty
                 (JStr "x'; DROP TABLE users; --") initial_world))
  = [Connect 0; Cursor 0;
     Execute 0 (Stmt describe_table_sql [JStr "x'; DROP TABLE users; --"]);
     Fetchall 0; CursorClose 0; Close 0].
Proof. reflexivity. Qed.

(** ** Which calls leave their connection open *)

Section OpenConnections.

Variable rt : Runtime.

Lemma db_call_left_open (s : statement) (finish : list row -> M string)
      (w : world) :
  (forall rows w0, snd (finish rows w0) = w0) ->
  db_connect rt (db_log w) = None ->
  existsb (is_close (count_attempts (db_log w))) (db_log w) = false ->
  left_open (db_log (snd (db_call rt s finish w))) (count_attempts (db_log w))
  = statement_fails rt (db_log w) s.
Proof.
  intros Hpure Hconn Hfresh.
  rewrite (db_call_log rt s finish w Hpure).
  unfold driver_calls, statement_fails, left_open. rewrite Hconn.
  destruct (db_execute rt _ s); [|destruct (db_fetchall rt _)];
    rewrite !existsb_app, Hfresh; cbn [existsb is_connect is_close orb];
    rewrite Nat.eqb_refl, ?orb_true_r; reflexivity.
Qed.

Lemma try_except_db_error_fst (m : M string) (w : world) (out : string) :
  fst (m w) = inr out -> fst (try_except m db_error w) = inr out.
Proof.
  unfold try_except. destruct (m w) as [[e|out'] w']; cbn; congruence.
Qed.

Lemma bullets_of_rows (rows : list row) :
  Forall (fun r => r <> []) rows ->
  bullets rows = inr (map (fun r => "- " ++ first_value r) rows).
Proof.
  induction 1 as [|r rest Hr _ IH]; [reflexivity|].
  cbn [bullets map]. destruct r as [|[k v] r]; [now destruct Hr|].
  cbn [bullet first_value]. now rewrite IH.
Qed.

Lemma db_call_rows (s : statement) (finish : list row -> M string)
      (w : world) (rows : list row) :
  statement_rows rt (db_log w) s = Some rows ->
  db_call rt s finish w
  = finish rows
      (mkWorld (db_log w
                ++ [Connect (count_attempts (db_log w));
                    Cursor (count_attempts (db_log w));
                    Execute (count_attempts (db_log w)) s;
                    Fetchall (count_attempts (db_log w));
                    CursorClose (count_attempts (db_log w));
                    Close (count_attempts (db_log w))])%list
               (stdout w) (stderr w)).
Proof.
  intros Hrows. pose proof (db_call_run rt s finish w) as Hrun.
  cbn zeta in Hrun. rewrite Hrun. unfold statement_rows in Hrows.
  destruct (db_connect rt (db_log w)); [discriminate|].
  destruct (db_execute rt _ s); [discriminate|].
  destruct (db_fetchall rt _); [discriminate|].
  now injection Hrows as ->.
Qed.



End OpenConnections.

(** X2.  When the connection is made, a database function returns with it
    still open exactly when [execute] or [fetchall] raised; when both
    succeeded the connection is closed, whatever happens afterwards while
    the text is made. *)
Theorem connection_left_open_iff_statement_fails (rt : Runtime) (w : world) :
  db_connect rt (db_log w) = None ->
  existsb (is_close (count_attempts (db_log w))) (db_log w) = false ->
  (forall q,
      startswith (str_upper rt (str_strip rt q)) "SELECT" = true ->
      left_open (db_log (snd (query_db rt (JStr q) w)))
                (count_attempts (db_log w))
      = statement_fails rt (db_log w) (Stmt q []))
  /\ left_open (db_log (snd (list_tables rt w))) (count_attempts (db_log w))
     = statement_fails rt (db_log w) (Stmt list_tables_sql [])
  /\ (forall name,
        left_open (db_log (snd (describe_table rt name w)))
                  (count_attempts (db_log w))
        = statement_fails rt (db_log w) (Stmt describe_table_sql [name])).
Proof.
  intros Hconn Hfresh. split; [|split].
  - intros q Hguard. unfold query_db. rewrite Hguard. cbn [negb].
    rewrite try_except_db_error_log, query_db_try_is_db_call.
    apply db_call_left_open; auto using query_db_finish_pure.
  - unfold list_tables.
    rewrite try_except_db_error_log, list_tables_try_is_db_call.
    apply db_call_left_open; auto using list_tables_finish_pure.
  - intros name. unfold describe_table.
    rewrite try_except_db_error_log, describe_table_try_is_db_call.
    apply db_call_left_open; auto using describe_table_finish_pure.
Qed.

Lemma connection_left_open_iff_statement_fails_witness :
  (forall q,
      startswith (Fixture.upper (Fixture.strip q)) "SELECT" = true ->
      left_open (db_log (snd (query_db Fixture.runtime (JStr q) initial_world))) 0
      = statement_fails Fixture.runtime [] (Stmt q []))
  /\ left_open (db_log (snd (list_tables Fixture.runtime initial_world))) 0
     = false
  /\ (forall name,
        left_open
          (db_log (snd (describe_table Fixture.runtime name initial_world))) 0
        = false).
Proof.
  apply (connection_left_open_iff_statement_fails Fixture.runtime initial_world);
    reflexivity.
Defined.

(** ** The texts of the paths that work *)

(** X3.  When the statement a function runs goes through and the
    database returns no row for it, the function answers with its own
    fixed text: [No results] for [query_db], [No tables] for
    [list_tables], and for [describe_table] a sentence that names the
    table it was asked about. *)
Theorem empty_result_texts (rt : Runtime) (w : world) :
  (forall q,
      startswith (str_upper rt (str_strip rt q)) "SELECT" = true ->
      statement_rows rt (db_log w) (Stmt q []) = Some [] ->
      fst (query_db rt (JStr q) w) = inr "No results")
  /\ (statement_rows rt (db_log w) (Stmt list_tables_sql []) = Some [] ->
      fst (list_tables rt w) = inr "No tables")
  /\ (forall name,
        statement_rows rt (db_log w) (Stmt describe_table_sql [name]) = Some [] ->
        fst (describe_table rt name w)
        = inr ("Table `" ++ py_str rt name ++ "` not found.")).
Proof.
  split; [|split].
  - intros q Hguard Hrows. unfold query_db. rewrite Hguard. cbn [negb].
    apply try_except_db_error_fst.
    now rewrite query_db_try_is_db_call, (db_call_rows rt _ _ w [] Hrows).
  - intros Hrows. unfold list_tables. apply try_except_db_error_fst.
    now rewrite list_tables_try_is_db_call, (db_call_rows rt _ _ w [] Hrows).
  - intros name Hrows. unfold describe_table. apply try_except_db_error_fst.
    now rewrite describe_table_try_is_db_call, (db_call_rows rt _ _ w [] Hrows).
Qed.

Lemma empty_result_texts_witness :
  fst (query_db Fixture.runtime (JStr "select 1") initial_world)
  = inr "No results"
  /\ fst (list_tables Fixture.runtime_empty initial_world) = inr "No tables"
  /\ fst (describe_table Fixture.runtime (JStr "nonexistent") initial_world)
     = inr "Table `nonexistent` not found.".
Proof.
  split; [|split].
  - apply (proj1 (empty_result_texts Fixture.runtime initial_world));
      reflexivity.
  - apply (proj1 (proj2 (empty_result_texts Fixture.runtime_empty
                           initial_world))); reflexivity.
  - apply (proj2 (proj2 (empty_result_texts Fixture.runtime initial_world))
             (JStr "nonexistent")); reflexivity.
Defined.

(** X4.  When the statement runs and the database returns rows, each with
    a first column, [list_tables] answers with one line per row, a dash
    and the first column, in the order the database gave: it does not sort
    and does not drop or merge rows. *)
Theorem list_tables_one_line_per_row (rt : Runtime) (w : world)
    (rows : list row) :
  db_connect rt (db_log w) = None ->
  db_execute rt
    (db_log w ++ [Connect (count_attempts (db_log w));
                  Cursor (count_attempts (db_log w))])%list
    (Stmt list_tables_sql []) = None ->
  db_fetchall rt
    (db_log w ++ [Connect (count_attempts (db_log w));
                  Cursor (count_attempts (db_log w));
                  Execute (count_attempts (db_log w))
                          (Stmt list_tables_sql [])])%list
  = inr rows ->
  rows <> [] ->
  Forall (fun r => r <> []) rows ->
  fst (list_tables rt w)
  = inr (join LF (map (fun r => "- " ++ first_value r) rows)).
Proof.
  intros Hconn Hexec Hfetch Hsome Hcols.
  unfold list_tables. apply try_except_db_error_fst.
  rewrite list_tables_try_is_db_call.
  pose proof (db_call_run rt (Stmt list_tables_sql []) list_tables_finish w)
    as Hrun.
  cbn zeta in Hrun. rewrite Hrun, Hconn, Hexec, Hfetch.
  destruct rows as [|r rest]; [now destruct Hsome|].
  unfold list_tables_finish, bind, lift, ret.
  now rewrite (bullets_of_rows _ Hcols).
Qed.

Lemma list_tables_one_line_per_row_witness :
  fst (list_tables Fixture.runtime initial_world)
  = inr (join LF ["- a"; "- b"]).
Proof.
  apply (list_tables_one_line_per_row Fixture.runtime initial_world
           [[("table_name", "a")]; [("table_name", "b")]]);
    try reflexivity.
  - discriminate.
  - repeat constructor; discriminate.
Defined.

(** ** The driver log along the read loop *)

Section LogAlongLoop.

Variable rt : Runtime.

Lemma silent_ret {A} (a : A) : silent (ret a).
Proof. intros w. reflexivity. Qed.

Lemma silent_raise {A} (e : exn) : silent (@raise A e).
Proof. intros w. reflexivity. Qed.

Lemma silent_py_get (o : json) (key : string) (default : json) :
  silent (py_get o key default).
Proof. intros w. destruct o; reflexivity. Qed.

Lemma silent_log (msg : string) : silent (log msg).
Proof. intros w. reflexivity. Qed.

Lemma silent_send (resp : dict) : silent (send resp).
Proof. intros w. reflexivity. Qed.

Lemma silent_bind {A B} (m : M A) (k : A -> M B) :
  silent m -> (forall a, silent (k a)) -> silent (bind m k).
Proof.
  intros Hm Hk w. unfold bind. specialize (Hm w).
  destruct (m w) as [[e|a] w1]; cbn [snd] in *; [exact Hm|].
  now rewrite Hk.
Qed.

Lemma silent_except_block (msg : option json) (e : exn) :
  silent (except_block msg e).
Proof.
  destruct msg as [m|]; [|apply silent_raise].
  apply silent_bind; [apply silent_py_get|intros a; apply silent_send].
Qed.

Lemma one_call_of_silent {A} (m : M A) : silent m -> at_most_one_call rt m.
Proof. intros H w. left. apply H. Qed.

Lemma one_call_after_silent {A B} (m : M A) (k : A -> M B) :
  silent m -> (forall a, at_most_one_call rt (k a)) ->
  at_most_one_call rt (bind m k).
Proof.
  intros Hm Hk w. unfold bind. specialize (Hm w).
  destruct (m w) as [[e|a] w1]; cbn [snd] in *; [now left|].
  rewrite <- Hm. apply Hk.
Qed.

Lemma one_call_before_silent {A B} (m : M A) (k : A -> M B) :
  at_most_one_call rt m -> (forall a, silent (k a)) ->
  at_most_one_call rt (bind m k).
Proof.
  intros Hm Hk w. unfold bind. specialize (Hm w).
  destruct (m w) as [[e|a] w1]; cbn [snd] in *; [exact Hm|].
  rewrite (Hk a w1). exact Hm.
Qed.

Lemma one_call_try_except {A} (m : M A) (h : exn -> M A) :
  at_most_one_call rt m -> (forall e, silent (h e)) ->
  at_most_one_call rt (try_except m h).
Proof.
  intros Hm Hh w. unfold try_except. specialize (Hm w).
  destruct (m w) as [[e|a] w1]; cbn [snd] in *; [|exact Hm].
  rewrite (Hh e w1). exact Hm.
Qed.

Lemma one_call_query_db (query : json) : at_most_one_call rt (query_db rt query).
Proof.
  intros w. destruct query; try (now left).
  rewrite query_db_log. destruct (startswith _ _); [right|now left].
  now exists (Stmt s []).
Qed.

Lemma one_call_list_tables : at_most_one_call rt (list_tables rt).
Proof. intros w. right. eexists. apply list_tables_log. Qed.

Lemma one_call_describe_table (name : json) :
  at_most_one_call rt (describe_table rt name).
Proof. intros w. right. eexists. apply describe_table_log. Qed.

Lemma one_call_call_tool (params : json) : at_most_one_call rt (call_tool rt params).
Proof.
  unfold call_tool.
  apply one_call_after_silent; [apply silent_py_get|intros tool].
  apply one_call_after_silent; [apply silent_py_get|intros args].
  destruct (json_eq_str tool "query_database").
  { apply one_call_after_silent; [apply silent_py_get|intros query].
    apply one_call_query_db. }
  destruct (json_eq_str tool "list_tables"); [apply one_call_list_tables|].
  destruct (json_eq_str tool "describe_table").
  { apply one_call_after_silent; [apply silent_py_get|intros name].
    apply one_call_describe_table. }
  apply one_call_of_silent, silent_ret.
Qed.

Lemma one_call_handle (msg : json) : at_most_one_call rt (handle rt msg).
Proof.
  unfold handle.
  apply one_call_after_silent; [apply silent_py_get|intros method].
  apply one_call_after_silent; [apply silent_py_get|intros msg_id].
  apply one_call_after_silent; [apply silent_py_get|intros params].
  apply one_call_after_silent; [apply silent_log|intros _].
  destruct (json_eq_str method "initialize");
    [apply one_call_of_silent, silent_ret|].
  destruct (json_eq_str method "tools/list");
    [apply one_call_of_silent, silent_ret|].
  destruct (json_eq_str method "tools/call").
  { apply one_call_before_silent; [apply one_call_call_tool|].
    intros out. apply silent_ret. }
  destruct (json_eq_str method "notifications/initialized");
    apply one_call_of_silent, silent_ret.
Qed.

Lemma one_call_turn (line : string) (msg0 : option json) :
  at_most_one_call rt (snd (turn rt line msg0)).
Proof.
  unfold turn, try_block. destruct (json_loads rt line) as [e|m]; cbn [snd].
  - apply one_call_try_except; [|apply silent_except_block].
    apply one_call_of_silent, silent_raise.
  - apply one_call_try_except; [|apply silent_except_block].
    apply one_call_before_silent; [apply one_call_handle|].
    intros [r|]; [|apply silent_ret].
    destruct (truthy (Some r)); [apply silent_send|apply silent_ret].
Qed.

(** A property of the log that one database function keeps is kept by the
    whole loop. *)
Lemma main_loop_log_invariant (P : list db_event -> Prop) :
  (forall L s, P L -> P (L ++ driver_calls rt L s)%list) ->
  forall (stdin : list string) (msg : option json) (w : world),
    P (db_log w) -> P (db_log (world_of (main_loop rt stdin msg w))).
Proof.
  intros Hstep stdin.
  induction stdin as [|line rest IH]; intros msg w Hw; cbn [main_loop].
  - exact Hw.
  - destruct (String.eqb line ""); [exact Hw|].
    destruct (String.eqb (str_strip rt line) ""); [now apply IH|].
    pose proof (one_call_turn (str_strip rt line) msg w) as Hturn.
    destruct (turn rt (str_strip rt line) msg) as [msg' step].
    cbn [snd] in Hturn.
    assert (Hw' : P (db_log (snd (step w)))).
    { destruct Hturn as [E|[s E]]; rewrite E; [exact Hw|now apply Hstep]. }
    destruct (step w) as [[e|[]] w']; cbn [snd] in Hw'; [exact Hw'|].
    now apply IH.
Qed.

Lemma count_attempts_driver_calls (L : list db_event) (s : statement) :
  attempt_ids (L ++ driver_calls rt L s)
  = (attempt_ids L ++ [count_attempts L])%list.
Proof.
  unfold attempt_ids, driver_calls. rewrite filter_app, map_app. f_equal.
  destruct (db_connect rt L); [reflexivity|].
  destruct (db_execute rt _ s); [reflexivity|].
  destruct (db_fetchall rt _); reflexivity.
Qed.

Lemma length_attempt_ids (L : list db_event) :
  length (attempt_ids L) = count_attempts L.
Proof. unfold attempt_ids, count_attempts. apply length_map. Qed.

Lemma main_loop_attempts_bound (stdin : list string) :
  forall (msg : option json) (w : world),
    count_attempts (db_log (world_of (main_loop rt stdin msg w)))
    <= count_attempts (db_log w) + length stdin.
Proof.
  induction stdin as [|line rest IH]; intros msg w;
    cbn [main_loop length world_of].
  - lia.
  - destruct (String.eqb line ""); [cbn [world_of]; lia|].
    destruct (String.eqb (str_strip rt line) "").
    { specialize (IH msg w). lia. }
    pose proof (one_call_turn (str_strip rt line) msg w) as Hturn.
    destruct (turn rt (str_strip rt line) msg) as [msg' step].
    cbn [snd] in Hturn.
    assert (Hw' : count_attempts (db_log (snd (step w)))
                  <= count_attempts (db_log w) + 1).
    { destruct Hturn as [E|[s E]]; rewrite E; [lia|].
      rewrite <- !length_attempt_ids, count_attempts_driver_calls.
      rewrite length_app. cbn. lia. }
    destruct (step w) as [[e|[]] w']; cbn [snd world_of] in *; [lia|].
    specialize (IH msg' w'). lia.
Qed.

Lemma driver_calls_conn (L : list db_event) (s : statement) (ev : db_event) :
  In ev (driver_calls rt L s) -> conn_of ev = count_attempts L.
Proof.
  unfold driver_calls.
  destruct (db_connect rt L); [|destruct (db_execute rt _ s);
                                 [|destruct (db_fetchall rt _)]];
    cbn [In]; intros H;
    repeat (destruct H as [<-|H]; [reflexivity|]); destruct H.
Qed.

Lemma driver_calls_one_statement (L : list db_event) (s : statement) :
  length (filter (is_execute (count_attempts L)) (driver_calls rt L s)) <= 1.
Proof.
  unfold driver_calls.
  destruct (db_connect rt L); [|destruct (db_execute rt _ s);
                                 [|destruct (db_fetchall rt _)]];
    cbn [filter is_execute]; rewrite ?Nat.eqb_refl; cbn [length]; lia.
Qed.

Lemma driver_calls_other_connection (L : list db_event) (s : statement)
      (c : nat) :
  Nat.eqb (count_attempts L) c = false ->
  filter (is_execute c) (driver_calls rt L s) = [].
Proof.
  intros Hc. unfold driver_calls.
  destruct (db_connect rt L); [|destruct (db_execute rt _ s);
                                 [|destruct (db_fetchall rt _)]];
    cbn [filter is_execute]; rewrite ?Hc; reflexivity.
Qed.

Lemma filter_nil_from_conn (L : list db_event) (c : nat) :
  (forall ev, In ev L -> conn_of ev < c) ->
  filter (is_execute c) L = [].
Proof.
  induction L as [|ev L IH]; intros Hold; [reflexivity|].
  cbn [filter].
  assert (Hev : is_execute c ev = false).
  { specialize (Hold ev (or_introl eq_refl)).
    destruct ev; cbn [is_execute conn_of] in *; try reflexivity.
    apply Nat.eqb_neq. lia. }
  rewrite Hev. apply IH. intros ev' Hin. apply Hold. now right.
Qed.

End LogAlongLoop.

(** X5.  In every run of [main], no connection runs more than one
    statement: each database function works on the connection it has just
    asked the driver for, and no later call goes back to it. *)
Theorem each_connection_runs_one_statement
    (rt : Runtime) (stdin : list string) (c : nat) :
  length (filter (is_execute c) (db_log (world_of (main rt stdin)))) <= 1.
Proof.
  unfold main.
  apply (main_loop_log_invariant rt
           (fun L => (forall ev, In ev L -> conn_of ev < count_attempts L)
                     /\ forall c, length (filter (is_execute c) L) <= 1));
    [|split; [intros ev []|intros c0; cbn; lia]].
  clear c stdin. intros L s [Hold Hone].
  assert (Hcount : count_attempts (L ++ driver_calls rt L s)
                   = S (count_attempts L)).
  { rewrite <- (length_attempt_ids (L ++ _)), count_attempts_driver_calls.
    rewrite length_app, length_attempt_ids. cbn [length]. lia. }
  split.
  - intros ev Hin. rewrite Hcount. apply in_app_or in Hin.
    destruct Hin as [Hin|Hin]; [specialize (Hold ev Hin); lia|].
    rewrite (driver_calls_conn rt L s ev Hin). lia.
  - intros c. rewrite filter_app, length_app.
    destruct (Nat.eqb (count_attempts L) c) eqn:Hc.
    + apply Nat.eqb_eq in Hc. subst c.
      assert (Hnone : filter (is_execute (count_attempts L)) L = []).
      { apply filter_nil_from_conn. exact Hold. }
      rewrite Hnone. cbn [length].
      apply driver_calls_one_statement.
    + rewrite (driver_calls_other_connection rt L s c Hc). cbn [length].
      specialize (Hone c). lia.
Qed.

(** X6.  [main] attempts at most one connection for each line it reads. *)
Theorem at_most_one_connection_per_line (rt : Runtime) (stdin : list string) :
  count_attempts (db_log (world_of (main rt stdin))) <= length stdin.
Proof.
  unfold main. apply (main_loop_attempts_bound rt stdin None).
Qed.

(** X7.  Against a database whose statements never raise, no run of
    [main] leaves a connection open: every connection that was made has
    been closed when [main] stops. *)
Theorem no_connection_left_open_when_statements_succeed
    (rt : Runtime) (stdin : list string) (c : nat) :
  (forall L s, db_execute rt L s = None) ->
  (forall L, exists rows, db_fetchall rt L = inr rows) ->
  left_open (db_log (world_of (main rt stdin))) c = false.
Proof.
  intros Hexec Hfetch. unfold main.
  apply (main_loop_log_invariant rt (fun L => left_open L c = false));
    [|reflexivity].
  intros L s HL. unfold driver_calls.
  destruct (db_connect rt L).
  - unfold left_open in *. rewrite !existsb_app. cbn [existsb is_connect is_close].
    now rewrite !orb_false_r.
  - rewrite Hexec. destruct (Hfetch (L ++ [Connect (count_attempts L);
                                           Cursor (count_attempts L);
                                           Execute (count_attempts L) s])%list)
      as [rows ->].
    unfold left_open in *. rewrite !existsb_app.
    cbn [existsb is_connect is_close]. rewrite !orb_false_r.
    destruct (Nat.eqb (count_attempts L) c).
    + now rewrite !orb_true_r.
    + now rewrite !orb_false_r.
Qed.

Lemma no_connection_left_open_when_statements_succeed_witness :
  left_open
    (db_log (world_of (main Fixture.runtime_empty
                         [Fixture.missing_query_line ++ LF;
                          Fixture.no_arguments_line ++ LF])))
    0 = false.
Proof.
  apply (no_connection_left_open_when_statements_succeed Fixture.runtime_empty).
  - intros L s. reflexivity.
  - intros L. exists []. reflexivity.
Defined.

(** ** The dispatcher and the two output streams *)

(** X8.  Only tools/call reaches the database: for a JSON object whose
    method is anything else, [handle] raises nothing, makes no call on the
    driver and prints nothing; it only logs the method on standard
    error. *)
Theorem only_tools_call_reaches_database
    (rt : Runtime) (fields : dict) (w : world) :
  json_eq_str (dict_get fields "method" JNull) "tools/call" = false ->
  exists response,
    handle rt (JObj fields) w
    = (inr response,
       mkWorld (db_log w) (stdout w)
         (snoc (stderr w)
            ("[PG-MCP] Received → "
             ++ py_str rt (dict_get fields "method" JNull)))).
Proof.
  intros Hcall.
  destruct (method_cases (dict_get fields "method" JNull))
    as [H|[H|[H|[H|H]]]].
  - eexists. now apply handle_initialize.
  - eexists. now apply handle_tools_list.
  - congruence.
  - eexists. now apply handle_notification.
  - eexists. now apply handle_unknown_method.
Qed.

Lemma only_tools_call_reaches_database_witness :
  exists response,
    handle Fixture.runtime_down Fixture.tools_list_msg initial_world
    = (inr response, mkWorld [] [] ["[PG-MCP] Received → tools/list"]).
Proof.
  apply (only_tools_call_reaches_database Fixture.runtime_down
           [("jsonrpc", JStr "2.0"); ("id", JInt 1);
            ("method", JStr "tools/list")] initial_world).
  reflexivity.
Defined.

(** X9.  [handle] never writes on standard output, whatever the message
    and whatever the database does; on standard error it writes one line
    for a JSON object, naming the method, and nothing for any other
    value, on which it raises before logging. *)
Theorem handle_writes_only_its_log_line (rt : Runtime) (msg : json) (w : world) :
  stdout (snd (handle rt msg w)) = stdout w
  /\ stderr (snd (handle rt msg w))
     = match msg with
       | JObj fields =>
           snoc (stderr w)
                ("[PG-MCP] Received → "
                 ++ py_str rt (dict_get fields "method" JNull))
       | _ => stderr w
       end.
Proof.
  destruct msg; try (split; reflexivity).
  destruct (method_cases (dict_get fields "method" JNull))
    as [H|[H|[H|[H|H]]]].
  - rewrite (handle_initialize rt fields w H). split; reflexivity.
  - rewrite (handle_tools_list rt fields w H). split; reflexivity.
  - rewrite (handle_tools_call rt fields w H).
    pose proof (quiet_call_tool rt (dict_get fields "params" (JObj []))
                  (received rt fields w)) as [Hout Herr].
    destruct (call_tool rt _ _) as [[e|out] w']; cbn [snd] in *;
      split; assumption.
  - rewrite (handle_notification rt fields w H). split; reflexivity.
  - rewrite (handle_unknown_method rt fields w H). split; reflexivity.
Qed.

(** ** The tools advertised and the tools dispatched *)

(** X11.  The tools that tools/list advertises are the tools that
    tools/call dispatches: a call that names an advertised tool goes to
    one of the three database functions, and a call that names anything
    else gets the unknown-tool text. *)
Theorem advertised_tools_are_the_dispatched_ones
    (rt : Runtime) (ps args : dict) (w : world) :
  dict_get ps "arguments" (JObj []) = JObj args ->
  (In (dict_get ps "name" JNull) (advertised_tools tools_list_result)
   /\ (call_tool rt (JObj ps) w = query_db rt (dict_get args "query" (JStr "")) w
       \/ call_tool rt (JObj ps) w = list_tables rt w
       \/ call_tool rt (JObj ps) w
          = describe_table rt (dict_get args "table_name" (JStr "")) w))
  \/ (~ In (dict_get ps "name" JNull) (advertised_tools tools_list_result)
      /\ call_tool rt (JObj ps) w
         = (inr ("Unknown tool: " ++ py_str rt (dict_get ps "name" JNull)), w)).
Proof.
  intros Hargs.
  destruct (tool_cases (dict_get ps "name" JNull)) as [H|[H|[H|H]]].
  - left. split; [rewrite H; cbn; tauto|].
    left. now apply call_tool_query_database.
  - left. split; [rewrite H; cbn; tauto|].
    right; left. now apply call_tool_list_tables.
  - left. split; [rewrite H; cbn; tauto|].
    right; right. now apply call_tool_describe_table.
  - right. split; [|now apply call_tool_unknown].
    intros Hin. cbn in Hin.
    destruct Hin as [E|[E|[E|[]]]]; rewrite <- E in H; discriminate H.
Qed.

Lemma advertised_tools_are_the_dispatched_ones_witness :
  (In (JStr "list_tables") (advertised_tools tools_list_result)
   /\ (call_tool Fixture.runtime (JObj [("name", JStr "list_tables")])
         initial_world
       = query_db Fixture.runtime (JStr "") initial_world
       \/ call_tool Fixture.runtime (JObj [("name", JStr "list_tables")])
            initial_world
          = list_tables Fixture.runtime initial_world
       \/ call_tool Fixture.runtime (JObj [("name", JStr "list_tables")])
            initial_world
          = describe_table Fixture.runtime (JStr "") initial_world))
  \/ (~ In (JStr "list_tables") (advertised_tools tools_list_result)
      /\ call_tool Fixture.runtime (JObj [("name", JStr "list_tables")])
           initial_world
         = (inr "Unknown tool: list_tables", initial_world)).
Proof.
  apply (advertised_tools_are_the_dispatched_ones Fixture.runtime
           [("name", JStr "list_tables")] [] initial_world).
  reflexivity.
Defined.

(** ** The read loop over a whole stream *)

Section Stream.

Variable rt : Runtime.

Lemma main_loop_skips_blank (stdin : list string) :
  forall (msg : option json) (w : world),
    main_loop rt (filter (fun line => negb (is_blank rt line)) stdin) msg w
    = main_loop rt stdin msg w.
Proof.
  induction stdin as [|line rest IH]; intros msg w; [reflexivity|].
  cbn [filter]. unfold is_blank.
  destruct (String.eqb line "") eqn:Heof; cbn [negb andb].
  { cbn [main_loop]. now rewrite Heof. }
  destruct (String.eqb (str_strip rt line) "") eqn:Hblank; cbn [negb].
  - rewrite IH. cbn [main_loop]. now rewrite Heof, Hblank.
  - cbn [main_loop]. rewrite Heof, Hblank.
    destruct (turn rt (str_strip rt line) msg) as [msg' step].
    destruct (step w) as [[e|[]] w']; [reflexivity|apply IH].
Qed.

Lemma main_loop_unparseable_after_object (line : string) (rest : list string)
      (previous : dict) (e : exn) (w : world) :
  String.eqb line "" = false ->
  String.eqb (str_strip rt line) "" = false ->
  json_loads rt (str_strip rt line) = inl e ->
  main_loop rt (line :: rest) (Some (JObj previous)) w
  = main_loop rt rest (Some (JObj previous))
      (printed w (error_response (dict_get previous "id" JNull) SERVER_ERROR
                    (exn_str e))).
Proof.
  intros Heof Hblank Hparse. cbn [main_loop].
  rewrite Heof, Hblank, (turn_unparsed rt _ _ _ Hparse). reflexivity.
Qed.

(** Once an object has been read, a stream of served lines is read to its
    end, each line answered as [answers] counts. *)
Lemma main_loop_served (stdin : list string) :
  forall (previous : dict) (w : world),
    forallb (is_served rt) stdin = true ->
    exists w',
      main_loop rt stdin (Some (JObj previous)) w = Exited w'
      /\ length (stdout w')
         = length (stdout w) + list_sum (map (answers rt) stdin).
Proof.
  induction stdin as [|line rest IH]; intros previous w Hserved.
  - exists w. split; [reflexivity|]. cbn. lia.
  - cbn [forallb] in Hserved. apply andb_prop in Hserved.
    destruct Hserved as [Hline Hrest].
    unfold is_served in Hline. apply andb_prop in Hline.
    destruct Hline as [Heof Hkind]. apply negb_true_iff in Heof.
    cbn [map list_sum fold_right]. unfold answers at 1.
    destruct (String.eqb (str_strip rt line) "") eqn:Hblank.
    + destruct (IH previous w Hrest) as (w' & Hrun & Hlen).
      exists w'. cbn [main_loop]. rewrite Heof, Hblank.
      split; [exact Hrun|]. fold (list_sum (map (answers rt) rest)). lia.
    + cbn [orb] in Hkind.
      destruct (json_loads rt (str_strip rt line)) as [e|m] eqn:Hparse.
      * rewrite (main_loop_unparseable_after_object line rest previous e w
                   Heof Hblank Hparse).
        destruct (IH previous
                    (printed w (error_response (dict_get previous "id" JNull)
                                  SERVER_ERROR (exn_str e))) Hrest)
          as (w' & Hrun & Hlen).
        exists w'. split; [exact Hrun|].
        rewrite Hlen. unfold printed, snoc. cbn [stdout].
        rewrite length_app. cbn [length].
        fold (list_sum (map (answers rt) rest)). lia.
      * destruct m; try discriminate Hkind.
        destruct (turn_object rt (str_strip rt line) (Some (JObj previous))
                    fields w Hparse) as (Hmsg & w1 & Hstep & Hout).
        cbn [main_loop]. rewrite Heof, Hblank.
        destruct (turn rt (str_strip rt line) (Some (JObj previous)))
          as [msg' step].
        cbn [fst snd] in Hmsg, Hstep. subst msg'. rewrite Hstep.
        destruct (IH fields w1 Hrest) as (w' & Hrun & Hlen).
        exists w'. split; [exact Hrun|]. rewrite Hlen.
        fold (list_sum (map (answers rt) rest)).
        destruct (json_eq_str _ _).
        -- rewrite Hout. lia.
        -- destruct Hout as (d & Hd & _). rewrite Hd. unfold snoc.
           rewrite length_app. cbn [length]. lia.
Qed.

End Stream.

(** X12.  Blank lines change nothing: [main] on a stream behaves as on the
    same stream without its blank lines, those that are not the end of
    the stream and are empty once stripped. *)
Theorem blank_lines_are_skipped (rt : Runtime) (stdin : list string) :
  main rt (filter (fun line => negb (is_blank rt line)) stdin) = main rt stdin.
Proof. unfold main. apply main_loop_skips_blank. Qed.

(** X13.  After an object has been read, a line that is not JSON is
    answered by one error response with the loop's own code and the text
    of the parse error, and the loop goes on with the lines that follow;
    the id of that response is the id of the last object read, not
    [null]. *)
Theorem unparseable_line_after_object_is_answered
    (rt : Runtime) (line : string) (rest : list string) (previous : dict)
    (e : exn) (w : world) :
  String.eqb line "" = false ->
  String.eqb (str_strip rt line) "" = false ->
  json_loads rt (str_strip rt line) = inl e ->
  main_loop rt (line :: rest) (Some (JObj previous)) w
  = main_loop rt rest (Some (JObj previous))
      (mkWorld (db_log w)
         (snoc (stdout w)
            [("id", dict_get previous "id" JNull);
             ("error", JObj [("code", JInt SERVER_ERROR);
                             ("message", JStr (exn_str e))]);
             ("jsonrpc", JStr "2.0")])
         (stderr w)).
Proof.
  intros Heof Hblank Hparse.
  now rewrite (main_loop_unparseable_after_object rt line rest previous e w).
Qed.

Lemma unparseable_line_after_object_is_answered_witness :
  main_loop Fixture.runtime [Fixture.garbage_line ++ LF]
    (Some (JObj [("id", JInt 1)])) initial_world
  = Exited
      (mkWorld []
         [[("id", JInt 1);
           ("error",
            JObj [("code", JInt (-32000));
                  ("message",
                   JStr "Expecting value: line 1 column 1 (char 0)")]);
           ("jsonrpc", JStr "2.0")]]
         []).
Proof.
  apply (unparseable_line_after_object_is_answered Fixture.runtime
           (Fixture.garbage_line ++ LF) [] [("id", JInt 1)]
           (LibraryError "Expecting value: line 1 column 1 (char 0)")
           initial_world); reflexivity.
Defined.

(** X14.  When the first line is a JSON object and every later line is
    blank, not JSON, or a JSON object, [main] reads the stream to its end
    and stops normally; it has then printed one line for each line that
    is not JSON and one for each object whose method is not
    notifications/initialized, and nothing else. *)
Theorem served_stream_is_read_to_its_end
    (rt : Runtime) (first : string) (rest : list string) :
  is_object_line rt first = true ->
  forallb (is_served rt) rest = true ->
  exists w,
    main rt (first :: rest) = Exited w
    /\ length (stdout w) = list_sum (map (answers rt) (first :: rest)).
Proof.
  intros Hfirst Hrest. unfold is_object_line in Hfirst.
  apply andb_prop in Hfirst. destruct Hfirst as [Hfirst Hobj].
  apply andb_prop in Hfirst. destruct Hfirst as [Heof Hblank].
  apply negb_true_iff in Heof. apply negb_true_iff in Hblank.
  destruct (json_loads rt (str_strip rt first)) as [e|m] eqn:Hparse;
    [discriminate|].
  destruct m; try discriminate Hobj.
  unfold main. cbn [main_loop map list_sum fold_right].
  rewrite Heof, Hblank. unfold answers at 1. rewrite Hblank, Hparse.
  set (w0 := snd (log "PostgreSQL MCP Server Running" initial_world)).
  destruct (turn_object rt (str_strip rt first) None fields w0 Hparse)
    as (Hmsg & w1 & Hstep & Hout).
  destruct (turn rt (str_strip rt first) None) as [msg' step].
  cbn [fst snd] in Hmsg, Hstep. subst msg'. rewrite Hstep.
  destruct (main_loop_served rt rest fields w1 Hrest) as (w' & Hrun & Hlen).
  exists w'. split; [exact Hrun|]. rewrite Hlen.
  fold (list_sum (map (answers rt) rest)).
  destruct (json_eq_str _ _).
  - rewrite Hout. reflexivity.
  - destruct Hout as (d & Hd & _). rewrite Hd. reflexivity.
Qed.

Lemma served_stream_is_read_to_its_end_witness :
  exists w,
    main Fixture.runtime
      [Fixture.tools_list_line ++ LF; LF; Fixture.garbage_line ++ LF;
       Fixture.initialized_line ++ LF; Fixture.ping_line ++ LF]
    = Exited w
    /\ length (stdout w) = 3.
Proof.
  apply (served_stream_is_read_to_its_end Fixture.runtime
           (Fixture.tools_list_line ++ LF)
           [LF; Fixture.garbage_line ++ LF; Fixture.initialized_line ++ LF;
            Fixture.ping_line ++ LF]); reflexivity.
Defined.

(** ** Values of the wrong type *)

(** X15.  A line that is JSON but not an object (an array, a number, a
    string, [null]) ends the loop, whatever was read before: [handle]
    raises on [msg.get], the handler raises on it again, and [main] stops
    on that [AttributeError] without printing anything for the line and
    without reading the lines after it. *)
Theorem non_object_line_ends_the_loop
    (rt : Runtime) (line : string) (rest : list string) (m : json)
    (msg0 : option json) (w : world) :
  String.eqb line "" = false ->
  String.eqb (str_strip rt line) "" = false ->
  json_loads rt (str_strip rt line) = inr m ->
  (forall fields, m <> JObj fields) ->
  main_loop rt (line :: rest) msg0 w
  = Crashed (AttributeError (type_name m) "get") w.
Proof. apply non_object_line_crashes. Qed.

Lemma non_object_line_ends_the_loop_witness :
  main_loop Fixture.runtime
    [Fixture.array_line ++ LF; Fixture.tools_list_line ++ LF]
    (Some Fixture.ping_msg) initial_world
  = Crashed (AttributeError "list" "get") initial_world.
Proof.
  apply (non_object_line_ends_the_loop Fixture.runtime
           (Fixture.array_line ++ LF) [Fixture.tools_list_line ++ LF]
           (JArr [JInt 1]) (Some Fixture.ping_msg) initial_world);
    try reflexivity.
  intros fields H. discriminate H.
Defined.

(** X16.  A tools/call request whose [params] is not an object makes
    [handle] raise on [params.get], after it has logged the method and
    before any tool is chosen: no call is made on the driver and nothing
    is printed by [handle]. *)
Theorem tools_call_with_non_object_params_raises
    (rt : Runtime) (fields : dict) (w : world) :
  dict_lookup fields "method" = Some (JStr "tools/call") ->
  (forall ps, dict_get fields "params" (JObj []) <> JObj ps) ->
  handle rt (JObj fields) w
  = (inl (AttributeError (type_name (dict_get fields "params" (JObj [])))
                         "get"),
     mkWorld (db_log w) (stdout w)
       (snoc (stderr w) "[PG-MCP] Received → tools/call")).
Proof.
  intros Hmethod Hparams.
  assert (Hm : dict_get fields "method" JNull = JStr "tools/call").
  { unfold dict_get. now rewrite Hmethod. }
  rewrite handle_tools_call by now rewrite Hm.
  unfold received. rewrite Hm.
  destruct (dict_get fields "params" (JObj [])) eqn:E; try reflexivity.
  now destruct (Hparams fields0).
Qed.

Lemma tools_call_with_non_object_params_raises_witness :
  handle Fixture.runtime
    (JObj [("id", JInt 1); ("method", JStr "tools/call");
           ("params", JArr [JStr "list_tables"])])
    initial_world
  = (inl (AttributeError "list" "get"),
     mkWorld [] [] ["[PG-MCP] Received → tools/call"]).
Proof.
  apply (tools_call_with_non_object_params_raises Fixture.runtime
           [("id", JInt 1); ("method", JStr "tools/call");
            ("params", JArr [JStr "list_tables"])] initial_world).
  - reflexivity.
  - intros ps H. discriminate H.
Defined.

(** ** C3: failures of a tool are results *)

Section ToolFailures.

Variable rt : Runtime.










End ToolFailures.


